(** * Variant availability for the SKU selector

    A shallow embedding of the TypeScript utilities of
    [ClientProductQuery-improvement.md] ([createVariantAvailabilityMap] in its
    successive revisions, and [isVariantDisabled]), followed by the
    properties of the availability engine that they do or do not satisfy.

    Conventions of the embedding:
    - an optional field ([f?: T], or a field GraphQL may deliver as [null]) is
      an [option]; [a?.f] is [a ?. f];
    - [a ?? b] is [JS.nullish]; [a || b] on strings is [JS.or_string];
    - a JavaScript [number] is [JS.number]: a rational, [NaN] or an
      infinity, which is all that [>] and [<=] can observe;
    - an object used as a dictionary ([Record<string, T>]) is seen twice:
      as a [gmap string T] giving, for the name of each variant, what
      [map[name]] holds, which is all that the classification of a
      variant needs; and as a [PlainObject.t], with its own properties
      and its prototype, where the keys of the object or a read under an
      arbitrary name are at stake. *)

From Stdlib Require Import QArith ZArith Lia.
From stdpp Require Import base option strings list gmap.

Local Open Scope string_scope.

(** ** JavaScript operators used by the source *)

Module JS.

Inductive number : Type :=
| NaN
| NegInfinity
| Infinity
| Finite (q : Q).

Definition Qlt_bool (x y : Q) : bool :=
  (Qnum x * QDen y <? Qnum y * QDen x)%Z.

(** [a < b] *)
Definition lt (a b : number) : bool :=
  match a, b with
  | NaN, _ | _, NaN => false
  | Finite x, Finite y => Qlt_bool x y
  | NegInfinity, NegInfinity => false
  | NegInfinity, _ => true
  | Infinity, _ => false
  | Finite _, Infinity => true
  | Finite _, NegInfinity => false
  end.

(** [a > b] *)
Definition gt (a b : number) : bool := lt b a.

(** [a <= b] *)
Definition le (a b : number) : bool :=
  match a, b with
  | NaN, _ | _, NaN => false
  | Finite x, Finite y => Qle_bool x y
  | NegInfinity, _ => true
  | _, Infinity => true
  | Infinity, _ => false
  | Finite _, NegInfinity => false
  end.

(** [a === b] on numbers *)
Definition eq_number (a b : number) : bool :=
  match a, b with
  | Finite x, Finite y => Qeq_bool x y
  | Infinity, Infinity | NegInfinity, NegInfinity => true
  | _, _ => false
  end.

(** [a / b] and [a * b] on this view of a number: exact on rationals (no
    rounding), and the sign of a zero is not tracked. The source uses them
    only to print a percentage. *)
Definition sign (q : Q) : comparison := (Qnum q ?= 0)%Z.

Definition div (a b : number) : number :=
  match a, b with
  | NaN, _ | _, NaN => NaN
  | Finite x, Finite y =>
      match sign y, sign x with
      | Eq, Eq => NaN
      | Eq, Gt => Infinity
      | Eq, Lt => NegInfinity
      | _, _ => Finite (x / y)
      end
  | Finite _, _ => Finite 0
  | _, Finite y =>
      match a, sign y with
      | Infinity, Lt | NegInfinity, (Eq | Gt) => NegInfinity
      | _, _ => Infinity
      end
  | _, _ => NaN
  end.

Definition mul (a b : number) : number :=
  match a, b with
  | NaN, _ | _, NaN => NaN
  | Finite x, Finite y => Finite (x * y)
  | Finite x, inf | inf, Finite x =>
      match sign x, inf with
      | Eq, _ => NaN
      | Gt, _ => inf
      | Lt, Infinity => NegInfinity
      | Lt, _ => Infinity
      end
  | Infinity, Infinity | NegInfinity, NegInfinity => Infinity
  | _, _ => NegInfinity
  end.

Definition of_nat (n : nat) : number := Finite (inject_Z (Z.of_nat n)).

(** [a ?? b] when [b] may itself be [undefined] *)
Definition nullish_opt {A} (a b : option A) : option A :=
  match a with
  | Some _ => a
  | None => b
  end.

(** [a ?? b] *)
Definition nullish {A} (a : option A) (b : A) : A :=
  match a with
  | Some x => x
  | None => b
  end.

(** Truthiness of a value of type [string | undefined] *)
Definition truthy (a : option string) : bool :=
  match a with
  | Some s => negb (String.eqb s "")
  | None => false
  end.

(** [a || b] on strings *)
Definition or_string (a : option string) (b : string) : string :=
  match a with
  | Some s => if truthy a then s else b
  | None => b
  end.

(** [a === b] on strings *)
Definition seq (a b : string) : bool := String.eqb a b.

(** [a?.f] for an optional field [f], and for a field that is always
    there *)
Definition chain {A B} (a : option A) (f : A → option B) : option B :=
  match a with
  | Some x => f x
  | None => None
  end.

Definition chain_val {A B} (a : option A) (f : A → B) : option B :=
  match a with
  | Some x => Some (f x)
  | None => None
  end.

(** [l?.[0]] *)
Definition first {A} (l : option (list A)) : option A :=
  match l with
  | Some (x :: _) => Some x
  | _ => None
  end.

(** [l.find(p)] *)
Fixpoint find {A} (p : A → bool) (l : list A) : option A :=
  match l with
  | [] => None
  | x :: l' => if p x then Some x else find p l'
  end.

End JS.

Notation "a ?. f" := (JS.chain a f) (at level 40, left associativity).
Notation "a ?.! f" := (JS.chain_val a f) (at level 40, left associativity).
Notation "a ?? b" := (JS.nullish a b) (at level 45, left associativity).
Notation "a ??? b" := (JS.nullish_opt a b) (at level 45, left associativity).

Coercion JS.of_nat : nat >-> JS.number.

(** ** The GraphQL payload ([allVariantProducts]) *)

Module InventoryLevel.
Record t := mk { value : option JS.number }.
End InventoryLevel.

Module Seller.
Record t := mk { identifier : string }.
End Seller.

Module Offer.
Record t := mk {
  availability : option string;
  quantity : option JS.number;
  inventoryLevel : option InventoryLevel.t;
  seller : option Seller.t;
}.
End Offer.

Module Offers.
Record t := mk {
  lowPrice : option JS.number;
  offers : option (list Offer.t);
}.
End Offers.

Module Variant.
Record t := mk {
  name : string;
  productID : string;
  offers : option Offers.t;
}.
End Variant.

Definition InStock : string := "https://schema.org/InStock".
Definition OutOfStock : string := "https://schema.org/OutOfStock".
Definition PreOrder : string := "https://schema.org/PreOrder".
Definition BackOrder : string := "https://schema.org/BackOrder".

(** ** Phase 1: the availability map and [isVariantDisabled] *)

Module Phase1.

Record VariantAvailability := mk {
  isAvailable : bool;
  quantity : JS.number;
  availability : string;
  lowPrice : JS.number;
}.

Abbreviation AvailabilityMap := (gmap string VariantAvailability).

(** The body of the [reduce] callback, up to the assignment. *)
Definition entry (variant : Variant.t) : VariantAvailability :=
  let offer := JS.first (Variant.offers variant ?. Offers.offers) in
  let availability := JS.or_string (offer ?. Offer.availability) "" in
  let quantity :=
    offer ?. Offer.quantity
      ??? offer ?. Offer.inventoryLevel ?. InventoryLevel.value
      ?? (0 : JS.number) in
  let lowPrice := Variant.offers variant ?. Offers.lowPrice ?? (0 : JS.number) in
  {| isAvailable :=
       JS.seq availability "https://schema.org/InStock"
       && JS.gt quantity 0
       && JS.gt lowPrice 0;
     quantity := quantity;
     availability := availability;
     lowPrice := lowPrice |}.

Definition createVariantAvailabilityMap
    (allVariantProducts : option (list Variant.t)) : AvailabilityMap :=
  match allVariantProducts with
  | None => ∅
  | Some allVariantProducts =>
      foldl (λ map variant, <[Variant.name variant := entry variant]> map)
            ∅ allVariantProducts
  end.

Definition isVariantDisabled
    (optionValue : string) (availabilityMap : AvailabilityMap) : bool :=
  let variantData := availabilityMap !! optionValue in
  match variantData with
  | None => false
  | Some variantData => negb (isAvailable variantData)
  end.

End Phase1.

(** ** Feature 1: low stock warnings *)

Definition LOW_STOCK_THRESHOLD : JS.number := 10.

Module LowStock.

Record VariantAvailability := mk {
  isAvailable : bool;
  isLowStock : bool;
  quantity : JS.number;
  availability : string;
  lowPrice : JS.number;
}.

Abbreviation AvailabilityMap := (gmap string VariantAvailability).

Definition entry (lowStockThreshold : JS.number) (variant : Variant.t)
    : VariantAvailability :=
  let offer := JS.first (Variant.offers variant ?. Offers.offers) in
  let availability := JS.or_string (offer ?. Offer.availability) "" in
  let quantity :=
    offer ?. Offer.quantity
      ??? offer ?. Offer.inventoryLevel ?. InventoryLevel.value
      ?? (0 : JS.number) in
  let lowPrice := Variant.offers variant ?. Offers.lowPrice ?? (0 : JS.number) in
  {| isAvailable :=
       JS.seq availability "https://schema.org/InStock"
       && JS.gt quantity 0
       && JS.gt lowPrice 0;
     isLowStock := JS.gt quantity 0 && JS.le quantity lowStockThreshold;
     quantity := quantity;
     availability := availability;
     lowPrice := lowPrice |}.

(** The second parameter is [None] when the caller leaves it out (or
    passes [undefined]): the default [LOW_STOCK_THRESHOLD] applies. *)
Definition createVariantAvailabilityMap
    (allVariantProducts : option (list Variant.t))
    (lowStockThreshold : option JS.number) : AvailabilityMap :=
  let lowStockThreshold := lowStockThreshold ?? LOW_STOCK_THRESHOLD in
  match allVariantProducts with
  | None => ∅
  | Some allVariantProducts =>
      foldl (λ map variant,
               <[Variant.name variant := entry lowStockThreshold variant]> map)
            ∅ allVariantProducts
  end.

End LowStock.

(** ** Feature 3: pre-order support

    The snippet uses [lowStockThreshold] in its body; it is the parameter
    of Feature 1, on which this revision builds. *)

Module PreOrderSupport.

Record VariantAvailability := mk {
  isAvailable : bool;
  isPreOrder : bool;
  isBackOrder : bool;
  isLowStock : bool;
  quantity : JS.number;
  availability : string;
  lowPrice : JS.number;
}.

Abbreviation AvailabilityMap := (gmap string VariantAvailability).

Definition entry (lowStockThreshold : JS.number) (variant : Variant.t)
    : VariantAvailability :=
  let offer := JS.first (Variant.offers variant ?. Offers.offers) in
  let availability := JS.or_string (offer ?. Offer.availability) "" in
  let quantity :=
    offer ?. Offer.quantity
      ??? offer ?. Offer.inventoryLevel ?. InventoryLevel.value
      ?? (0 : JS.number) in
  let lowPrice := Variant.offers variant ?. Offers.lowPrice ?? (0 : JS.number) in
  let isInStock := JS.seq availability "https://schema.org/InStock" in
  let isPreOrder := JS.seq availability "https://schema.org/PreOrder" in
  let isBackOrder := JS.seq availability "https://schema.org/BackOrder" in
  {| isAvailable := (isInStock || isPreOrder || isBackOrder) && JS.gt lowPrice 0;
     isPreOrder := isPreOrder;
     isBackOrder := isBackOrder;
     isLowStock := JS.gt quantity 0 && JS.le quantity lowStockThreshold;
     quantity := quantity;
     availability := availability;
     lowPrice := lowPrice |}.

Definition createVariantAvailabilityMap
    (allVariantProducts : option (list Variant.t))
    (lowStockThreshold : option JS.number) : AvailabilityMap :=
  let lowStockThreshold := lowStockThreshold ?? LOW_STOCK_THRESHOLD in
  match allVariantProducts with
  | None => ∅
  | Some allVariantProducts =>
      foldl (λ map variant,
               <[Variant.name variant := entry lowStockThreshold variant]> map)
            ∅ allVariantProducts
  end.

End PreOrderSupport.

(** ** Edge case 1: multiple sellers

    The snippet replaces the first three bindings of the callback; the
    entry is the one of Phase 1. *)

Module MultiSeller.

Import Phase1.

(** [o => o.seller?.identifier === "1"] *)
Definition isDefaultSeller (o : Offer.t) : bool :=
  match Offer.seller o ?.! Seller.identifier with
  | Some identifier => JS.seq identifier "1"
  | None => false
  end.

(** [variant.offers?.offers?.find(...) || variant.offers?.offers?.[0]];
    an offer object is truthy. *)
Definition offer (variant : Variant.t) : option Offer.t :=
  match Variant.offers variant ?. Offers.offers ?. JS.find isDefaultSeller with
  | Some o => Some o
  | None => JS.first (Variant.offers variant ?. Offers.offers)
  end.

Definition entry (variant : Variant.t) : VariantAvailability :=
  let offer := offer variant in
  let availability := JS.or_string (offer ?. Offer.availability) "" in
  let quantity := offer ?. Offer.quantity ?? (0 : JS.number) in
  let lowPrice := Variant.offers variant ?. Offers.lowPrice ?? (0 : JS.number) in
  {| isAvailable :=
       JS.seq availability "https://schema.org/InStock"
       && JS.gt quantity 0
       && JS.gt lowPrice 0;
     quantity := quantity;
     availability := availability;
     lowPrice := lowPrice |}.

Definition createVariantAvailabilityMap
    (allVariantProducts : option (list Variant.t)) : AvailabilityMap :=
  match allVariantProducts with
  | None => ∅
  | Some allVariantProducts =>
      foldl (λ map variant, <[Variant.name variant := entry variant]> map)
            ∅ allVariantProducts
  end.

End MultiSeller.

(** ** Edge case 4: variant name matching

    Every entry is stored twice, under the normalised name and under the
    original one. [trim] and [toLowerCase] are the runtime's string
    methods and are parameters. *)

Module Normalized.
Section WithStrings.

Variable trim : string → string.
Variable toLowerCase : string → string.

Definition normalizeVariantName (name : string) : string :=
  toLowerCase (trim name).

Definition createVariantAvailabilityMap
    (allVariantProducts : option (list Variant.t)) : Phase1.AvailabilityMap :=
  match allVariantProducts with
  | None => ∅
  | Some allVariantProducts =>
      foldl (λ map variant,
               let normalizedKey := normalizeVariantName (Variant.name variant) in
               let map := <[normalizedKey := Phase1.entry variant]> map in
               <[Variant.name variant := Phase1.entry variant]> map)
            ∅ allVariantProducts
  end.

End WithStrings.
End Normalized.

(** ** Monitoring: data quality metrics

    The map is the one of Phase 1; the counts go to [console.log] in
    development builds only. [process.env.NODE_ENV], [console.log] and
    [Number.prototype.toFixed] belong to the runtime and are parameters. *)

Module Monitoring.

Record Stats := mk {
  total : nat;
  withOffers : nat;
  withAvailability : nat;
  coverage : string;
}.

Section WithRuntime.

Context {World : Type}.
Variable NODE_ENV : option string.
Variable console_log : string → Stats → World → World.
Variable toFixed : JS.number → nat → string.

Definition createVariantAvailabilityMap
    (allVariantProducts : option (list Variant.t)) (world : World)
    : Phase1.AvailabilityMap * World :=
  match allVariantProducts with
  | None => (∅, world)
  | Some allVariantProducts =>
      let map :=
        foldl (λ map variant,
                 <[Variant.name variant := Phase1.entry variant]> map)
              ∅ allVariantProducts in
      let totalVariants := length allVariantProducts in
      let variantsWithOffers :=
        length (filter (λ v, is_Some (Variant.offers v)) allVariantProducts) in
      let variantsWithAvailability :=
        length
          (filter
             (λ v, JS.truthy
                     (JS.first (Variant.offers v ?. Offers.offers)
                        ?. Offer.availability) = true)
             allVariantProducts) in
      let world :=
        match NODE_ENV with
        | Some "development" =>
            console_log "Variant Availability Stats:"
              {| total := totalVariants;
                 withOffers := variantsWithOffers;
                 withAvailability := variantsWithAvailability;
                 coverage :=
                   toFixed
                     (JS.mul
                        (JS.div variantsWithAvailability totalVariants)
                        (100%nat : JS.number))
                     1
                   ++ "%" |}
              world
        | _ => world
        end in
      (map, world)
  end.

End WithRuntime.
End Monitoring.

(** ** Phase 2: the options handed to [SkuSelector]

    [ProductDetails] builds the map once ([useMemo]) and decorates every
    option of every variation property with [disabled]. *)

Module SkuOption.
Record t := mk {
  src : string;
  alt : option string;
  label : string;
  value : string;
}.
End SkuOption.

Module EnhancedOption.
Record t := mk {
  src : string;
  alt : string;
  label : string;
  value : string;
  disabled : bool;
}.
End EnhancedOption.

Module ProductDetails.

(** The [useMemo] callback; the argument is
    [isVariantOf?.skuVariants?.allVariantProducts]. *)
Definition variantAvailabilityMap
    (allVariantProducts : option (list Variant.t)) : Phase1.AvailabilityMap :=
  match allVariantProducts with
  | None => ∅
  | Some _ => Phase1.createVariantAvailabilityMap allVariantProducts
  end.

Definition enhancedOptions
    (propertyName : string) (options : list SkuOption.t)
    (variantAvailabilityMap : Phase1.AvailabilityMap) : list EnhancedOption.t :=
  (λ opt,
     {| EnhancedOption.src := SkuOption.src opt;
        EnhancedOption.alt :=
          JS.or_string (SkuOption.alt opt)
                       (propertyName ++ ": " ++ SkuOption.value opt);
        EnhancedOption.label := SkuOption.value opt;
        EnhancedOption.value := SkuOption.value opt;
        EnhancedOption.disabled :=
          Phase1.isVariantDisabled (SkuOption.value opt) variantAvailabilityMap |})
    <$> options.


End ProductDetails.

(** ** Rollback plan: the feature flag

    [NEXT_PUBLIC_ENABLE_AVAILABILITY] is read from the environment of the
    build and is a parameter. *)

Module Rollback.

Definition ENABLE_AVAILABILITY_CHECK
    (NEXT_PUBLIC_ENABLE_AVAILABILITY : option string) : bool :=
  match NEXT_PUBLIC_ENABLE_AVAILABILITY with
  | Some flag => JS.seq flag "true"
  | None => false
  end.

Definition enhancedOptions
    (NEXT_PUBLIC_ENABLE_AVAILABILITY : option string)
    (propertyName : string) (options : list SkuOption.t)
    (variantAvailabilityMap : Phase1.AvailabilityMap) : list EnhancedOption.t :=
  (λ opt,
     {| EnhancedOption.src := SkuOption.src opt;
        EnhancedOption.alt :=
          JS.or_string (SkuOption.alt opt)
                       (propertyName ++ ": " ++ SkuOption.value opt);
        EnhancedOption.label := SkuOption.value opt;
        EnhancedOption.value := SkuOption.value opt;
        EnhancedOption.disabled :=
          if ENABLE_AVAILABILITY_CHECK NEXT_PUBLIC_ENABLE_AVAILABILITY
          then Phase1.isVariantDisabled (SkuOption.value opt) variantAvailabilityMap
          else false |})
    <$> options.

End Rollback.

(** ** Feature 1 in the component: the low stock indicator

    [isVariantDisabled] is the function of Phase 1, read at the map type
    of Feature 1. The spread [...(variantData?.isLowStock && {...})] adds
    the attribute when the entry is there and low on stock, and nothing
    otherwise. *)

Module LowStockOption.
Record t := mk {
  src : string;
  alt : string;
  label : string;
  value : string;
  disabled : bool;
  data_low_stock : option string;
}.
End LowStockOption.

Module LowStockIndicator.

Definition isVariantDisabled
    (optionValue : string) (availabilityMap : LowStock.AvailabilityMap) : bool :=
  let variantData := availabilityMap !! optionValue in
  match variantData with
  | None => false
  | Some variantData => negb (LowStock.isAvailable variantData)
  end.

Definition enhancedOptions
    (propertyName : string) (options : list SkuOption.t)
    (variantAvailabilityMap : LowStock.AvailabilityMap) : list LowStockOption.t :=
  (λ opt,
     let variantData := variantAvailabilityMap !! SkuOption.value opt in
     {| LowStockOption.src := SkuOption.src opt;
        LowStockOption.alt :=
          JS.or_string (SkuOption.alt opt)
                       (propertyName ++ ": " ++ SkuOption.value opt);
        LowStockOption.label := SkuOption.value opt;
        LowStockOption.value := SkuOption.value opt;
        LowStockOption.disabled :=
          isVariantDisabled (SkuOption.value opt) variantAvailabilityMap;
        LowStockOption.data_low_stock :=
          match variantData ?.! LowStock.isLowStock with
          | Some true => Some "true"
          | _ => None
          end |})
    <$> options.

End LowStockIndicator.

(** ** The cart notifications of [Toast.tsx]

    The effect of the [Toast] component, run on [messages] of the cart.
    Its state is the set behind the [processedMessages] ref; [pushToast]
    belongs to the UI library, so the calls made to it are recorded in
    order. *)

Module Toast.

Record Message := mkMessage {
  status : string;
  text : string;
}.

(** The argument of [pushToast]. *)
Record Pushed := mkPushed {
  pushed_message : string;
  pushed_status : string;
}.

Record State := mkState {
  processedMessages : gset string;
  pushToast_calls : list Pushed;
}.

Definition messageKey (message : Message) : string :=
  status message ++ "-" ++ text message.

(** The callback of [messages.forEach]. *)
Definition process (st : State) (message : Message) : State :=
  if JS.seq (status message) "ERROR" then
    let messageKey := messageKey message in
    if bool_decide (messageKey ∈ processedMessages st) then st
    else
      {| pushToast_calls :=
           pushToast_calls st
             ++ [{| pushed_message := text message;
                    pushed_status := status message |}];
         processedMessages := {[messageKey]} ∪ processedMessages st |}
  else st.

Definition effect (messages : option (list Message)) (st : State) : State :=
  match messages with
  | None => st
  | Some messages =>
      let st := foldl process st messages in
      if Nat.eqb (length messages) 0
      then {| processedMessages := ∅; pushToast_calls := pushToast_calls st |}
      else st
  end.

End Toast.

(** ** Plain objects, as the runtime has them

    The map is an object literal [{}], written with [map[name] = entry]
    and read with [map[key]]. Both go through the prototype chain: a
    write to ["__proto__"] replaces the prototype instead of adding a
    property, and a read of a name that is not an own property finds what
    the prototype chain holds under it. The chain of [{}] is
    [Object.prototype], taken as the language defines it. The entries are
    those of Phase 1. *)

Module PlainObject.

(** The members of [Object.prototype], ["__proto__"] apart; all of them
    are functions. *)
Definition objectPrototype : list string :=
  ["constructor"; "hasOwnProperty"; "isPrototypeOf"; "propertyIsEnumerable";
   "toLocaleString"; "toString"; "valueOf";
   "__defineGetter__"; "__defineSetter__"; "__lookupGetter__"; "__lookupSetter__"].

Inductive primitive : Type :=
| PBoolean (b : bool)
| PNumber (n : JS.number)
| PString (s : string).

(** What [o[k]] can be. *)
Inductive value : Type :=
| Undefined
| Entry (entry : Phase1.VariantAvailability)
| Primitive (p : primitive)
| Builtin.

Record t := mk {
  own : gmap string Phase1.VariantAvailability;
  prototype : option Phase1.VariantAvailability;
}.

(** [{}] *)
Definition empty : t := {| own := ∅; prototype := None |}.

(** [o[k] = entry] *)
Definition set (k : string) (entry : Phase1.VariantAvailability) (o : t) : t :=
  if String.eqb k "__proto__"
  then {| own := own o; prototype := Some entry |}
  else {| own := <[k := entry]> (own o); prototype := prototype o |}.

(** [entry[k]] on an entry's own fields *)
Definition field (k : string) (entry : Phase1.VariantAvailability)
    : option primitive :=
  if String.eqb k "isAvailable" then Some (PBoolean (Phase1.isAvailable entry))
  else if String.eqb k "quantity" then Some (PNumber (Phase1.quantity entry))
  else if String.eqb k "availability" then Some (PString (Phase1.availability entry))
  else if String.eqb k "lowPrice" then Some (PNumber (Phase1.lowPrice entry))
  else None.

Definition fromObjectPrototype (k : string) : value :=
  if bool_decide (k ∈ objectPrototype) then Builtin else Undefined.

(** [o[k]] *)
Definition get (k : string) (o : t) : value :=
  match own o !! k with
  | Some entry => Entry entry
  | None =>
      if String.eqb k "__proto__" then
        match prototype o with
        | Some entry => Entry entry
        | None => Builtin
        end
      else
        match prototype o with
        | Some entry =>
            match field k entry with
            | Some p => Primitive p
            | None => fromObjectPrototype k
            end
        | None => fromObjectPrototype k
        end
  end.

(** Truthiness of [o[k]] *)
Definition truthy (v : value) : bool :=
  match v with
  | Undefined => false
  | Entry _ | Builtin => true
  | Primitive (PBoolean b) => b
  | Primitive (PNumber JS.NaN) => false
  | Primitive (PNumber (JS.Finite q)) => negb (Qeq_bool q 0)
  | Primitive (PNumber _) => true
  | Primitive (PString s) => negb (String.eqb s "")
  end.

(** [v.isAvailable] of a truthy [v], and [v?.isAvailable] of any [v]: only
    an entry has the field. *)
Definition isAvailable (v : value) : option bool :=
  match v with
  | Entry entry => Some (Phase1.isAvailable entry)
  | _ => None
  end.

(** [Object.keys(o)], as a set *)
Definition keys (o : t) : gset string := dom (own o).

End PlainObject.

(** ** The utilities on plain objects *)

Module Runtime.

Definition createVariantAvailabilityMap
    (allVariantProducts : option (list Variant.t)) : PlainObject.t :=
  match allVariantProducts with
  | None => PlainObject.empty
  | Some allVariantProducts =>
      foldl (λ map variant,
               PlainObject.set (Variant.name variant) (Phase1.entry variant) map)
            PlainObject.empty allVariantProducts
  end.

Definition isVariantDisabled
    (optionValue : string) (availabilityMap : PlainObject.t) : bool :=
  let variantData := PlainObject.get optionValue availabilityMap in
  if negb (PlainObject.truthy variantData) then false
  else
    match PlainObject.isAvailable variantData with
    | Some isAvailable => negb isAvailable
    | None => true
    end.

(** The [useMemo] callback of [ProductDetails]. *)
Definition variantAvailabilityMap
    (allVariantProducts : option (list Variant.t)) : PlainObject.t :=
  match allVariantProducts with
  | None => PlainObject.empty
  | Some _ => createVariantAvailabilityMap allVariantProducts
  end.

Definition enhancedOptions
    (propertyName : string) (options : list SkuOption.t)
    (variantAvailabilityMap : PlainObject.t) : list EnhancedOption.t :=
  (λ opt,
     {| EnhancedOption.src := SkuOption.src opt;
        EnhancedOption.alt :=
          JS.or_string (SkuOption.alt opt)
                       (propertyName ++ ": " ++ SkuOption.value opt);
        EnhancedOption.label := SkuOption.value opt;
        EnhancedOption.value := SkuOption.value opt;
        EnhancedOption.disabled :=
          isVariantDisabled (SkuOption.value opt) variantAvailabilityMap |})
    <$> options.

End Runtime.

(** ** Edge case 2: missing availability data

    [console.warn] is an effect on the ambient world, threaded through the
    call; what the console does with a message is not the utility's
    business, so it is a parameter. *)

Module MissingData.
Section WithConsole.

Context {World : Type}.
Variable console_warn : string → World → World.

Definition isVariantDisabled
    (optionValue : string) (availabilityMap : PlainObject.t)
    (world : World) : bool * World :=
  let variantData := PlainObject.get optionValue availabilityMap in
  if negb (PlainObject.truthy variantData) then
    let world :=
      console_warn ("No availability data for variant: " ++ optionValue) world in
    (false, world)
  else
    (match PlainObject.isAvailable variantData with
     | Some isAvailable => negb isAvailable
     | None => true
     end,
     world).

End WithConsole.
End MissingData.

(** ** Feature 2: the availability tooltip

    The text shown for an option, with the bytes the document has. How a
    number prints in a template literal is the runtime's business and is
    a parameter. *)

Module Tooltip.
Section WithNumberFormat.

Variable toString : JS.number → string.

Definition content
    (optionValue : string) (variantAvailabilityMap : PlainObject.t) : string :=
  let variantData := PlainObject.get optionValue variantAvailabilityMap in
  match variantData with
  | PlainObject.Entry entry =>
      if Phase1.isAvailable entry
      then toString (Phase1.quantity entry) ++ " em estoque"
      else "IndisponÃ­vel"
  | _ => "IndisponÃ­vel"
  end.

End WithNumberFormat.
End Tooltip.

(** ** Monitoring, with a console that may fail

    The monitoring revision again, on plain objects and with a
    [console.log] that either returns or throws: the call has no
    [try]/[catch], so what the console throws leaves the call. *)

Module Completion.

Inductive t (E A : Type) : Type :=
| Returned (a : A)
| Thrown (e : E).

Arguments Returned {E A} a.
Arguments Thrown {E A} e.

End Completion.

Module MonitoringCall.
Section WithRuntime.

Context {World Error : Type}.
Variable NODE_ENV : option string.
Variable console_log : string → Monitoring.Stats → World → Completion.t Error World.
Variable toFixed : JS.number → nat → string.

Definition createVariantAvailabilityMap
    (allVariantProducts : option (list Variant.t)) (world : World)
    : Completion.t Error (PlainObject.t * World) :=
  match allVariantProducts with
  | None => Completion.Returned (PlainObject.empty, world)
  | Some allVariantProducts =>
      let map :=
        foldl (λ map variant,
                 PlainObject.set (Variant.name variant) (Phase1.entry variant) map)
              PlainObject.empty allVariantProducts in
      let totalVariants := length allVariantProducts in
      let variantsWithOffers :=
        length (filter (λ v, is_Some (Variant.offers v)) allVariantProducts) in
      let variantsWithAvailability :=
        length
          (filter
             (λ v, JS.truthy
                     (JS.first (Variant.offers v ?. Offers.offers)
                        ?. Offer.availability) = true)
             allVariantProducts) in
      match NODE_ENV with
      | Some "development" =>
          match
            console_log "Variant Availability Stats:"
              {| Monitoring.total := totalVariants;
                 Monitoring.withOffers := variantsWithOffers;
                 Monitoring.withAvailability := variantsWithAvailability;
                 Monitoring.coverage :=
                   toFixed
                     (JS.mul
                        (JS.div variantsWithAvailability totalVariants)
                        (100%nat : JS.number))
                     1
                   ++ "%" |}
              world
          with
          | Completion.Returned world => Completion.Returned (map, world)
          | Completion.Thrown e => Completion.Thrown e
          end
      | _ => Completion.Returned (map, world)
      end
  end.

End WithRuntime.
End MonitoringCall.

(** ** The engine as the specification words it

    Two pieces of the specification's configuration have no counterpart in
    the utilities above; they are written down here from its text, to be
    compared with what the code does. *)

Module Spec.

(** OfferSelector: the offer of the preferred seller when the preference
    is set and some offer matches it, otherwise the first offer. *)
Definition select (preferredSellerId : option string) (offers : list Offer.t)
    : option Offer.t :=
  let fallback := head offers in
  match preferredSellerId with
  | None => fallback
  | Some preferred =>
      let matches (o : Offer.t) :=
        bool_decide (Offer.seller o ?.! Seller.identifier = Some preferred) in
      match JS.find matches offers with
      | Some o => Some o
      | None => fallback
      end
  end.

Inductive MissingDataPolicy := Optimistic | Pessimistic.

(** [isAvailable] of a variant without offers: true exactly under the
    optimistic policy. *)
Definition isAvailableWithoutOffers (policy : MissingDataPolicy) : bool :=
  match policy with
  | Optimistic => true
  | Pessimistic => false
  end.

End Spec.

(** ** Vocabulary of the statements *)

(** The names of the variants of a response, in received order. *)
Definition variantNames (allVariantProducts : option (list Variant.t))
    : list string :=
  match allVariantProducts with
  | None => []
  | Some vs => Variant.name <$> vs
  end.

(** The offer the baseline classifies a variant by: [offers?.offers?.[0]]. *)
Definition firstOffer (variant : Variant.t) : option Offer.t :=
  JS.first (Variant.offers variant ?. Offers.offers).

(** [quantity ?? inventoryLevel?.value ?? 0] of that offer. *)
Definition resolvedQuantity (offer : option Offer.t) : JS.number :=
  offer ?. Offer.quantity
    ??? offer ?. Offer.inventoryLevel ?. InventoryLevel.value
    ?? (0 : JS.number).

(** [offers?.lowPrice ?? 0] of a variant. *)
Definition resolvedLowPrice (variant : Variant.t) : JS.number :=
  Variant.offers variant ?. Offers.lowPrice ?? (0 : JS.number).

(** A variant has no offer to classify: [offers] is missing, or its list
    is missing or empty. *)
Definition withoutOffers (variant : Variant.t) : Prop :=
  firstOffer variant = None.

(** No later variant of the response carries the same name, so that the
    entry written for [variant] is the one the finished map holds. *)
Definition notOverwritten (variant : Variant.t) (after : list Variant.t) : Prop :=
  Forall (λ w, Variant.name w ≠ Variant.name variant) after.

(** The names a read of [{}] can resolve without an own property: the
    accessor, the members of [Object.prototype] and, once an entry has
    become the prototype, the fields of an entry. *)
Definition inheritedNames : list string :=
  "__proto__" :: PlainObject.objectPrototype
    ++ ["isAvailable"; "quantity"; "availability"; "lowPrice"].

(** ** The inputs of the document's unit tests and examples *)

Module Fixtures.

Definition offer (availability : string) (quantity : nat) : Offer.t :=
  {| Offer.availability := Some availability;
     Offer.quantity := Some (quantity : JS.number);
     Offer.inventoryLevel := None;
     Offer.seller := None |}.

Definition sold_by (identifier : string) (o : Offer.t) : Offer.t :=
  {| Offer.availability := Offer.availability o;
     Offer.quantity := Offer.quantity o;
     Offer.inventoryLevel := Offer.inventoryLevel o;
     Offer.seller := Some {| Seller.identifier := identifier |} |}.

Definition variant (name productID : string) (lowPrice : nat)
    (offers : list Offer.t) : Variant.t :=
  {| Variant.name := name;
     Variant.productID := productID;
     Variant.offers :=
       Some {| Offers.lowPrice := Some (lowPrice : JS.number);
               Offers.offers := Some offers |} |}.

Definition red : Variant.t := variant "Red" "1" 50 [offer InStock 100].
Definition blue : Variant.t := variant "Blue" "2" 0 [offer OutOfStock 0].
Definition green : Variant.t :=
  {| Variant.name := "Green"; Variant.productID := "3"; Variant.offers := None |}.
Definition yellow : Variant.t := variant "Yellow" "4" 50 [offer InStock 5].

(** An offer that carries only [inventoryLevel]. *)
Definition stocked (availability : string) (level : nat) : Offer.t :=
  {| Offer.availability := Some availability;
     Offer.quantity := None;
     Offer.inventoryLevel :=
       Some {| InventoryLevel.value := Some (level : JS.number) |};
     Offer.seller := None |}.

Definition teal : Variant.t := variant "Teal" "5" 30 [stocked PreOrder 7].

(** A few units left of a variant that is not on sale. *)
Definition grey : Variant.t := variant "Grey" "6" 50 [offer OutOfStock 3].

(** Edge case 1: the second seller is the default one. *)
Definition twoSellers : list Offer.t :=
  [sold_by "2" (offer InStock 100); sold_by "1" (offer OutOfStock 0)].
Definition violet : Variant.t := variant "Violet" "7" 50 twoSellers.

(** A console that keeps what it is given. *)
Definition keep {A} (message : string) (data : A) (world : list (string * A))
    : list (string * A) :=
  world ++ [(message, data)].

End Fixtures.

(** A console that keeps the messages of [console.warn]. *)
Definition keep_message (message : string) (world : list string) : list string :=
  (world ++ [message])%list.

(** ** Further sample inputs *)

Module Samples.

Definition option (value : string) : SkuOption.t :=
  {| SkuOption.src := "https://example.com/" ++ value;
     SkuOption.alt := Some "";
     SkuOption.label := "Cor: " ++ value;
     SkuOption.value := value |}.

(** The selector of the integration test, with one option more that the
    catalog does not know. *)
Definition colours : list SkuOption.t := [option "Red"; option "Blue"; option "Purple"].

Definition error (text : string) : Toast.Message :=
  {| Toast.status := "ERROR"; Toast.text := text |}.

Definition warning (text : string) : Toast.Message :=
  {| Toast.status := "WARNING"; Toast.text := text |}.

Definition fresh : Toast.State :=
  {| Toast.processedMessages := ∅; Toast.pushToast_calls := [] |}.

Definition cartMessages : list Toast.Message :=
  [error "Out of stock"; warning "Price changed"; error "Out of stock";
   error "Item removed"].

(** A variant named like the prototype accessor. *)
Definition accessor : Variant.t :=
  Fixtures.variant "__proto__" "10" 50 [Fixtures.offer InStock 100].

End Samples.

(** * Properties *)

(** ** Comparisons of numbers *)

Arguments JS.lt : simpl never.
Arguments JS.gt : simpl never.
Arguments JS.le : simpl never.

Module JSFacts.

Lemma Qlt_bool_iff (x y : Q) : JS.Qlt_bool x y = true ↔ (x < y)%Q.
Proof. unfold JS.Qlt_bool, Qlt. apply Z.ltb_lt. Qed.

Lemma gt_zero_not_zero (p : JS.number) :
  JS.eq_number p (0 : JS.number) = true → JS.gt p (0 : JS.number) = false.
Proof.
  destruct p as [| | |q]; simpl; try done.
  intros Hq%Qeq_bool_iff.
  apply not_true_is_false. unfold JS.gt, JS.lt, JS.of_nat.
  rewrite Qlt_bool_iff. rewrite Hq. apply Qlt_irrefl.
Qed.

(** Nothing positive lies at or below a negative bound. *)
Lemma no_positive_below_negative (q t : JS.number) :
  JS.lt t (0 : JS.number) = true →
  JS.gt q (0 : JS.number) && JS.le q t = false.
Proof.
  intros Ht. apply not_true_is_false. rewrite andb_true_iff.
  intros [Hq Hle]. unfold JS.gt, JS.lt, JS.le, JS.of_nat in *.
  destruct q as [| | |q], t as [| | |t]; try done.
  apply Qlt_bool_iff in Ht, Hq. apply Qle_bool_iff in Hle.
  apply (Qlt_irrefl 0).
  eapply Qlt_trans; [exact Hq|]. eapply Qle_lt_trans; [exact Hle|exact Ht].
Qed.

End JSFacts.

(** ** The [reduce] that fills the map *)

Section Reduce.

Context {V : Type} (entry : Variant.t → V).

Lemma reduce_lookup_other (vs : list Variant.t) (m : gmap string V) (k : string) :
  Forall (λ w, Variant.name w ≠ k) vs →
  foldl (λ map variant, <[Variant.name variant := entry variant]> map) m vs !! k
  = m !! k.
Proof.
  intros Hvs. revert m.
  induction Hvs as [|w vs Hw _ IH]; intros m; simpl; [done|].
  rewrite IH. by apply lookup_insert_ne.
Qed.

(** The entry of a name is the one of the last variant that bears it. *)
Lemma reduce_lookup_last (before after : list Variant.t) (variant : Variant.t)
    (m : gmap string V) :
  notOverwritten variant after →
  foldl (λ map variant, <[Variant.name variant := entry variant]> map) m
        (before ++ variant :: after)%list !! Variant.name variant
  = Some (entry variant).
Proof.
  intros Hafter. rewrite foldl_app. simpl.
  rewrite reduce_lookup_other by exact Hafter.
  apply lookup_insert_eq.
Qed.

(** Every entry comes from a variant of that name. *)
Lemma reduce_lookup_Some (vs : list Variant.t) (m : gmap string V)
    (k : string) (d : V) :
  foldl (λ map variant, <[Variant.name variant := entry variant]> map) m vs !! k
  = Some d →
  m !! k = Some d ∨ ∃ variant, variant ∈ vs ∧ Variant.name variant = k ∧ d = entry variant.
Proof.
  revert m. induction vs as [|w vs IH]; intros m; simpl; [by left|].
  intros [Hm | (variant & Hin & Hk & Hd)]%IH.
  - destruct (decide (Variant.name w = k)) as [Heq|Hne].
    + subst k. rewrite lookup_insert_eq in Hm. injection Hm as <-.
      right. exists w. split; [apply list_elem_of_here | done].
    + rewrite lookup_insert_ne in Hm by done. by left.
  - right. exists variant. split; [by apply list_elem_of_further | done].
Qed.

Lemma reduce_lookup_is_Some (vs : list Variant.t) (m : gmap string V) (k : string) :
  is_Some (foldl (λ map variant, <[Variant.name variant := entry variant]> map)
                 m vs !! k)
  ↔ is_Some (m !! k) ∨ k ∈ Variant.name <$> vs.
Proof.
  revert m. induction vs as [|w vs IH]; intros m; simpl.
  - rewrite elem_of_nil. tauto.
  - rewrite IH, elem_of_cons, lookup_insert_is_Some.
    destruct (decide (Variant.name w = k)) as [Heq|Hne].
    + split; intros _; [right|left]; by left.
    + split.
      * intros [[Heq | [_ Hm]] | Hin]; [by destruct Hne | by left | by right; right].
      * intros [Hm | [Heq | Hin]]; [by left; right | by destruct Hne | by right].
Qed.

End Reduce.

(** ** The unit tests of the document *)

Module UnitTests.
Import Fixtures.

Example available_when_in_stock :
  let map := Phase1.createVariantAvailabilityMap (Some [red]) in
  Phase1.isAvailable <$> map !! "Red" = Some true
  ∧ Phase1.quantity <$> map !! "Red" = Some (100%nat : JS.number).
Proof. split; reflexivity. Qed.

Example unavailable_when_out_of_stock :
  let map := Phase1.createVariantAvailabilityMap (Some [blue]) in
  Phase1.isAvailable <$> map !! "Blue" = Some false
  ∧ Phase1.quantity <$> map !! "Blue" = Some (0%nat : JS.number).
Proof. split; reflexivity. Qed.

Example missing_offer_data :
  let map := Phase1.createVariantAvailabilityMap (Some [green]) in
  Phase1.isAvailable <$> map !! "Green" = Some false.
Proof. reflexivity. Qed.

Example low_stock_identified :
  let map :=
    LowStock.createVariantAvailabilityMap (Some [yellow]) (Some (10%nat : JS.number)) in
  LowStock.isAvailable <$> map !! "Yellow" = Some true
  ∧ LowStock.isLowStock <$> map !! "Yellow" = Some true.
Proof. split; reflexivity. Qed.

Example disabled_when_unavailable :
  Phase1.isVariantDisabled "Red"
    {[ "Red" := {| Phase1.isAvailable := false;
                   Phase1.quantity := 0%nat;
                   Phase1.availability := OutOfStock;
                   Phase1.lowPrice := 0%nat |} ]}
  = true.
Proof. reflexivity. Qed.

Example enabled_when_available :
  Phase1.isVariantDisabled "Blue"
    {[ "Blue" := {| Phase1.isAvailable := true;
                    Phase1.quantity := 100%nat;
                    Phase1.availability := InStock;
                    Phase1.lowPrice := 50%nat |} ]}
  = false.
Proof. reflexivity. Qed.

Example enabled_when_not_in_map : Phase1.isVariantDisabled "Unknown" ∅ = false.
Proof. reflexivity. Qed.

Example pre_order_is_available :
  let map := PreOrderSupport.createVariantAvailabilityMap (Some [teal]) None in
  map !! "Teal"
  = Some {| PreOrderSupport.isAvailable := true;
            PreOrderSupport.isPreOrder := true;
            PreOrderSupport.isBackOrder := false;
            PreOrderSupport.isLowStock := true;
            PreOrderSupport.quantity := 7%nat;
            PreOrderSupport.availability := PreOrder;
            PreOrderSupport.lowPrice := 30%nat |}.
Proof. reflexivity. Qed.

End UnitTests.

(** ** In-stock variants *)

(** C1. A variant whose offer is InStock with a positive quantity and a
    positive price gets an entry with [isAvailable = true], [isPreOrder =
    false] and [isBackOrder = false], whose [isLowStock] tells whether the
    quantity is at or below the low-stock threshold in force (the second
    argument, 10 when it is left out). The entry under the variant's name
    is that of the last variant so named. Stated for the pre-order
    revision, which has all four flags, for the low-stock revision, and
    for Phase 1, which has [isAvailable] only. *)
Theorem in_stock_decision
    (before after : list Variant.t) (variant : Variant.t)
    (lowStockThreshold : option JS.number) :
  notOverwritten variant after →
  firstOffer variant ?. Offer.availability = Some InStock →
  JS.gt (resolvedQuantity (firstOffer variant)) (0 : JS.number) = true →
  JS.gt (resolvedLowPrice variant) (0 : JS.number) = true →
  let allVariantProducts := Some (before ++ variant :: after)%list in
  let atOrBelowThreshold :=
    JS.le (resolvedQuantity (firstOffer variant))
          (lowStockThreshold ?? LOW_STOCK_THRESHOLD) in
  (∃ d,
     PreOrderSupport.createVariantAvailabilityMap allVariantProducts lowStockThreshold
       !! Variant.name variant = Some d
     ∧ PreOrderSupport.isAvailable d = true
     ∧ PreOrderSupport.isPreOrder d = false
     ∧ PreOrderSupport.isBackOrder d = false
     ∧ PreOrderSupport.isLowStock d = atOrBelowThreshold)
  ∧ (∃ d,
       LowStock.createVariantAvailabilityMap allVariantProducts lowStockThreshold
         !! Variant.name variant = Some d
       ∧ LowStock.isAvailable d = true
       ∧ LowStock.isLowStock d = atOrBelowThreshold)
  ∧ Phase1.isAvailable
      <$> Phase1.createVariantAvailabilityMap allVariantProducts
            !! Variant.name variant = Some true.
Proof.
  intros Hlast Hstatus Hquantity Hprice. simpl.
  unfold firstOffer, resolvedQuantity, resolvedLowPrice in *.
  split; [|split].
  - unfold PreOrderSupport.createVariantAvailabilityMap.
    rewrite reduce_lookup_last by exact Hlast.
    eexists. split; [reflexivity|].
    unfold PreOrderSupport.entry. simpl.
    rewrite Hstatus, Hquantity, Hprice. by repeat split.
  - unfold LowStock.createVariantAvailabilityMap.
    rewrite reduce_lookup_last by exact Hlast.
    eexists. split; [reflexivity|].
    unfold LowStock.entry. simpl.
    rewrite Hstatus, Hquantity, Hprice. by repeat split.
  - unfold Phase1.createVariantAvailabilityMap.
    rewrite reduce_lookup_last by exact Hlast.
    unfold Phase1.entry. simpl.
    by rewrite Hstatus, Hquantity, Hprice.
Qed.

Lemma in_stock_decision_yellow :
  let allVariantProducts := Some ([Fixtures.red] ++ Fixtures.yellow :: [Fixtures.blue])%list in
  (∃ d,
     PreOrderSupport.createVariantAvailabilityMap allVariantProducts None
       !! "Yellow" = Some d
     ∧ PreOrderSupport.isAvailable d = true
     ∧ PreOrderSupport.isPreOrder d = false
     ∧ PreOrderSupport.isBackOrder d = false
     ∧ PreOrderSupport.isLowStock d = true)
  ∧ (∃ d,
       LowStock.createVariantAvailabilityMap allVariantProducts None
         !! "Yellow" = Some d
       ∧ LowStock.isAvailable d = true
       ∧ LowStock.isLowStock d = true)
  ∧ Phase1.isAvailable
      <$> Phase1.createVariantAvailabilityMap allVariantProducts !! "Yellow"
    = Some true.
Proof.
  apply (in_stock_decision [Fixtures.red] [Fixtures.blue] Fixtures.yellow None).
  - unfold notOverwritten. repeat constructor. discriminate.
  - reflexivity.
  - reflexivity.
  - reflexivity.
Defined.

(** ** The zero price *)

(** C2. A variant whose [lowPrice] is 0 (also when the field is missing,
    which the code reads as 0) is unavailable whatever the status and the
    quantity of its offer: in Phase 1, with low-stock warnings, with
    pre-order support and with the seller priority alike. *)
Theorem zero_price_unavailable
    (before after : list Variant.t) (variant : Variant.t)
    (lowStockThreshold : option JS.number) :
  notOverwritten variant after →
  JS.eq_number (resolvedLowPrice variant) (0 : JS.number) = true →
  let allVariantProducts := Some (before ++ variant :: after)%list in
  Phase1.isAvailable
    <$> Phase1.createVariantAvailabilityMap allVariantProducts
          !! Variant.name variant = Some false
  ∧ LowStock.isAvailable
      <$> LowStock.createVariantAvailabilityMap allVariantProducts lowStockThreshold
            !! Variant.name variant = Some false
  ∧ PreOrderSupport.isAvailable
      <$> PreOrderSupport.createVariantAvailabilityMap allVariantProducts lowStockThreshold
            !! Variant.name variant = Some false
  ∧ Phase1.isAvailable
      <$> MultiSeller.createVariantAvailabilityMap allVariantProducts
            !! Variant.name variant = Some false.
Proof.
  intros Hlast Hzero%JSFacts.gt_zero_not_zero. simpl.
  unfold resolvedLowPrice in Hzero.
  unfold Phase1.createVariantAvailabilityMap,
    LowStock.createVariantAvailabilityMap,
    PreOrderSupport.createVariantAvailabilityMap,
    MultiSeller.createVariantAvailabilityMap.
  rewrite !reduce_lookup_last by exact Hlast. simpl.
  rewrite !Hzero, !andb_false_r. done.
Qed.

Lemma zero_price_unavailable_in_stock :
  let free := Fixtures.variant "Free" "8" 0 [Fixtures.offer InStock 100] in
  let allVariantProducts := Some ([Fixtures.red] ++ free :: [Fixtures.blue])%list in
  Phase1.isAvailable
    <$> Phase1.createVariantAvailabilityMap allVariantProducts !! "Free" = Some false
  ∧ LowStock.isAvailable
      <$> LowStock.createVariantAvailabilityMap allVariantProducts None
            !! "Free" = Some false
  ∧ PreOrderSupport.isAvailable
      <$> PreOrderSupport.createVariantAvailabilityMap allVariantProducts None
            !! "Free" = Some false
  ∧ Phase1.isAvailable
      <$> MultiSeller.createVariantAvailabilityMap allVariantProducts
            !! "Free" = Some false.
Proof.
  apply (zero_price_unavailable
           [Fixtures.red] [Fixtures.blue]
           (Fixtures.variant "Free" "8" 0 [Fixtures.offer InStock 100]) None).
  - unfold notOverwritten. repeat constructor. discriminate.
  - reflexivity.
Defined.

(** ** The offer a variant is classified by *)

Section Find.

Context {A : Type}.

Lemma find_ext (p q : A → bool) (l : list A) :
  (∀ x, p x = q x) → JS.find p l = JS.find q l.
Proof.
  intros Hpq. induction l as [|x l IH]; simpl; [done|].
  by rewrite Hpq, IH.
Qed.

Lemma find_None (p : A → bool) (l : list A) :
  JS.find p l = None ↔ Forall (λ x, p x = false) l.
Proof.
  induction l as [|x l IH]; simpl.
  - split; [constructor | done].
  - rewrite Forall_cons. destruct (p x); [|by rewrite IH; intuition].
    split; [done | by intros [? _]].
Qed.

(** [find] returns the first element that passes the test. *)
Lemma find_Some (p : A → bool) (l : list A) (x : A) :
  JS.find p l = Some x ↔
  ∃ before after,
    l = (before ++ x :: after)%list
    ∧ Forall (λ y, p y = false) before
    ∧ p x = true.
Proof.
  induction l as [|y l IH]; simpl.
  - split; [done|]. intros (before & after & Hl & _). by destruct before.
  - destruct (p y) eqn:Hy.
    + split.
      * intros [= ->]. exists [], l. by repeat split.
      * intros ([|z before] & after & Hl & Hbefore & Hx).
        -- by injection Hl as -> _.
        -- injection Hl as <- _. apply Forall_cons in Hbefore as [Hz _].
           congruence.
    + rewrite IH. split.
      * intros (before & after & -> & Hbefore & Hx).
        exists (y :: before), after. repeat split; [|done]. by constructor.
      * intros ([|z before] & after & Hl & Hbefore & Hx).
        -- injection Hl as -> _. congruence.
        -- injection Hl as _ ->. apply Forall_cons in Hbefore as [_ Hbefore].
           by exists before, after.
Qed.

End Find.

Lemma isDefaultSeller_spec (o : Offer.t) :
  MultiSeller.isDefaultSeller o
  = bool_decide (Offer.seller o ?.! Seller.identifier = Some "1").
Proof.
  unfold MultiSeller.isDefaultSeller, JS.seq.
  destruct (Offer.seller o ?.! Seller.identifier) as [identifier|]; [|done].
  destruct (String.eqb_spec identifier "1") as [->|Hne]; [done|].
  symmetry. apply bool_decide_eq_false. congruence.
Qed.

(** C3, as the code has it. The preferred seller is not a setting: the
    seller priority looks for the seller ["1"]. For every list of
    offers, the offer a variant is classified by is the first one sold by
    seller ["1"] when there is one, and the first offer received
    otherwise; this is the specified selector at [preferredSellerId =
    "1"]. Of the offers [InStock] by seller ["2"] then [OutOfStock] by
    seller ["1"], the second is selected. *)
Theorem default_seller_selection (variant : Variant.t) (offers : list Offer.t) :
  Variant.offers variant ?. Offers.offers = Some offers →
  MultiSeller.offer variant = Spec.select (Some "1") offers
  ∧ (∀ o, o ∈ offers → MultiSeller.isDefaultSeller o = true →
       ∃ before chosen after,
         offers = (before ++ chosen :: after)%list
         ∧ Forall (λ x, MultiSeller.isDefaultSeller x = false) before
         ∧ MultiSeller.isDefaultSeller chosen = true
         ∧ MultiSeller.offer variant = Some chosen)
  ∧ (Forall (λ o, MultiSeller.isDefaultSeller o = false) offers →
       MultiSeller.offer variant = head offers)
  ∧ (offers ≠ [] → is_Some (MultiSeller.offer variant)).
Proof.
  intros Hoffers.
  assert (Hfirst : JS.first (Some offers) = head offers) by by destruct offers.
  assert (Hoffer : MultiSeller.offer variant
                   = match JS.find MultiSeller.isDefaultSeller offers with
                     | Some o => Some o
                     | None => head offers
                     end).
  { unfold MultiSeller.offer. by rewrite Hoffers, <- Hfirst. }
  split; [|split; [|split]].
  - rewrite Hoffer. unfold Spec.select.
    by rewrite (find_ext _ _ offers isDefaultSeller_spec).
  - intros o Hin Ho.
    destruct (JS.find MultiSeller.isDefaultSeller offers) as [chosen|] eqn:Hfind.
    + apply find_Some in Hfind as (before & after & Hsplit & Hbefore & Hchosen).
      by exists before, chosen, after.
    + apply find_None in Hfind. rewrite Forall_forall in Hfind.
      specialize (Hfind o Hin). congruence.
  - intros Hnone%find_None. by rewrite Hoffer, Hnone.
  - intros Hne. rewrite Hoffer.
    destruct (JS.find MultiSeller.isDefaultSeller offers); [by eexists|].
    destruct offers; [done | by eexists].
Qed.

Lemma default_seller_selection_two_sellers :
  MultiSeller.offer Fixtures.violet
  = Some (Fixtures.sold_by "1" (Fixtures.offer OutOfStock 0)).
Proof.
  destruct (default_seller_selection Fixtures.violet Fixtures.twoSellers)
    as (Hspec & _); [reflexivity|].
  rewrite Hspec. reflexivity.
Defined.

(** C3, as stated, fails. With no preferred seller configured the first
    offer received should be selected, and with seller ["2"] preferred the
    offer of seller ["2"]; the code selects the offer of seller ["1"] in
    both cases. The baseline has no seller priority at all: it reads the
    first offer even when seller ["1"] is preferred. *)
Lemma selection_ignores_preferred_seller :
  let byDefaultSeller := Fixtures.sold_by "1" (Fixtures.offer OutOfStock 0) in
  let byOtherSeller := Fixtures.sold_by "2" (Fixtures.offer InStock 100) in
  Fixtures.twoSellers = [byOtherSeller; byDefaultSeller]
  ∧ MultiSeller.offer Fixtures.violet = Some byDefaultSeller
  ∧ Spec.select None Fixtures.twoSellers = Some byOtherSeller
  ∧ Spec.select (Some "2") Fixtures.twoSellers = Some byOtherSeller
  ∧ MultiSeller.offer Fixtures.violet ≠ Spec.select None Fixtures.twoSellers
  ∧ MultiSeller.offer Fixtures.violet ≠ Spec.select (Some "2") Fixtures.twoSellers
  ∧ firstOffer Fixtures.violet ≠ Spec.select (Some "1") Fixtures.twoSellers.
Proof. repeat split; try reflexivity; vm_compute; discriminate. Qed.

(** ** Variants without offers *)

Lemma withoutOffers_no_default_seller (variant : Variant.t) :
  withoutOffers variant → MultiSeller.offer variant = None.
Proof.
  unfold withoutOffers, firstOffer, MultiSeller.offer.
  destruct (Variant.offers variant ?. Offers.offers) as [[|o offers]|]; done.
Qed.

(** C4, as the code has it. There is no missing-data policy: a variant
    whose offer list is missing or empty always gets an entry with
    [isAvailable = false] (and no quantity, no status, no flag), which is
    what the pessimistic policy asks for. *)
Theorem no_offers_unavailable
    (before after : list Variant.t) (variant : Variant.t)
    (lowStockThreshold : option JS.number) :
  notOverwritten variant after →
  withoutOffers variant →
  let allVariantProducts := Some (before ++ variant :: after)%list in
  let unavailable :=
    {| Phase1.isAvailable := Spec.isAvailableWithoutOffers Spec.Pessimistic;
       Phase1.quantity := 0%nat;
       Phase1.availability := "";
       Phase1.lowPrice := resolvedLowPrice variant |} in
  Phase1.createVariantAvailabilityMap allVariantProducts !! Variant.name variant
  = Some unavailable
  ∧ MultiSeller.createVariantAvailabilityMap allVariantProducts
      !! Variant.name variant
    = Some unavailable
  ∧ LowStock.createVariantAvailabilityMap allVariantProducts lowStockThreshold
      !! Variant.name variant
    = Some {| LowStock.isAvailable := false;
              LowStock.isLowStock := false;
              LowStock.quantity := 0%nat;
              LowStock.availability := "";
              LowStock.lowPrice := resolvedLowPrice variant |}
  ∧ PreOrderSupport.createVariantAvailabilityMap allVariantProducts lowStockThreshold
      !! Variant.name variant
    = Some {| PreOrderSupport.isAvailable := false;
              PreOrderSupport.isPreOrder := false;
              PreOrderSupport.isBackOrder := false;
              PreOrderSupport.isLowStock := false;
              PreOrderSupport.quantity := 0%nat;
              PreOrderSupport.availability := "";
              PreOrderSupport.lowPrice := resolvedLowPrice variant |}.
Proof.
  intros Hlast Hnone. simpl.
  pose proof (withoutOffers_no_default_seller variant Hnone) as Hdefault.
  unfold withoutOffers, firstOffer in Hnone.
  unfold Phase1.createVariantAvailabilityMap,
    LowStock.createVariantAvailabilityMap,
    PreOrderSupport.createVariantAvailabilityMap,
    MultiSeller.createVariantAvailabilityMap.
  rewrite !reduce_lookup_last by exact Hlast.
  unfold Phase1.entry, MultiSeller.entry, LowStock.entry, PreOrderSupport.entry.
  rewrite Hnone, Hdefault. done.
Qed.

Lemma no_offers_unavailable_green :
  Phase1.createVariantAvailabilityMap
    (Some ([Fixtures.red] ++ Fixtures.green :: [Fixtures.blue])%list)
    !! "Green"
  = Some {| Phase1.isAvailable := false;
            Phase1.quantity := 0%nat;
            Phase1.availability := "";
            Phase1.lowPrice := 0%nat |}.
Proof.
  refine (proj1 (no_offers_unavailable
                   [Fixtures.red] [Fixtures.blue] Fixtures.green None _ _)).
  - unfold notOverwritten. repeat constructor. discriminate.
  - reflexivity.
Defined.

(** C4, as stated, fails under the optimistic policy: the variant of the
    document's own test, which has no offers, is unavailable, where the
    optimistic policy asks for [isAvailable = true]. *)
Lemma no_offers_never_optimistic :
  withoutOffers Fixtures.green
  ∧ Phase1.isAvailable
      <$> Phase1.createVariantAvailabilityMap (Some [Fixtures.green]) !! "Green"
    = Some false
  ∧ Spec.isAvailableWithoutOffers Spec.Optimistic = true
  ∧ Phase1.isAvailable
      <$> Phase1.createVariantAvailabilityMap (Some [Fixtures.green]) !! "Green"
    ≠ Some (Spec.isAvailableWithoutOffers Spec.Optimistic).
Proof. repeat split; try reflexivity. vm_compute. discriminate. Qed.

(** ** Low stock *)

Lemma seq_true (a b : string) : JS.seq a b = true ↔ a = b.
Proof. apply String.eqb_eq. Qed.

(** C5, as the code has it. [isLowStock] looks at the quantity alone: it
    is true exactly when the quantity is positive and at or below the
    threshold, whatever the status and the price. A low-stock entry is
    available exactly when, in addition, its status is InStock (with
    pre-order support: InStock, PreOrder or BackOrder) and its price is
    positive. *)
Theorem low_stock_is_about_quantity
    (allVariantProducts : option (list Variant.t))
    (lowStockThreshold : option JS.number) (k : string)
    (d : LowStock.VariantAvailability) (d' : PreOrderSupport.VariantAvailability) :
  LowStock.createVariantAvailabilityMap allVariantProducts lowStockThreshold !! k
  = Some d →
  PreOrderSupport.createVariantAvailabilityMap allVariantProducts lowStockThreshold !! k
  = Some d' →
  let threshold := lowStockThreshold ?? LOW_STOCK_THRESHOLD in
  ((LowStock.isLowStock d = true ↔
      JS.gt (LowStock.quantity d) (0 : JS.number) = true
      ∧ JS.le (LowStock.quantity d) threshold = true)
   ∧ (LowStock.isLowStock d = true →
        (LowStock.isAvailable d = true ↔
           LowStock.availability d = InStock
           ∧ JS.gt (LowStock.lowPrice d) (0 : JS.number) = true)))
  ∧ ((PreOrderSupport.isLowStock d' = true ↔
        JS.gt (PreOrderSupport.quantity d') (0 : JS.number) = true
        ∧ JS.le (PreOrderSupport.quantity d') threshold = true)
     ∧ (PreOrderSupport.isAvailable d' = true ↔
          (PreOrderSupport.availability d' = InStock
           ∨ PreOrderSupport.availability d' = PreOrder
           ∨ PreOrderSupport.availability d' = BackOrder)
          ∧ JS.gt (PreOrderSupport.lowPrice d') (0 : JS.number) = true)).
Proof.
  intros Hd Hd'. simpl.
  destruct allVariantProducts as [vs|]; [|done].
  apply reduce_lookup_Some in Hd as [Hd | (variant & _ & _ & ->)]; [done|].
  apply reduce_lookup_Some in Hd' as [Hd' | (variant' & _ & _ & ->)]; [done|].
  split.
  - unfold LowStock.entry. simpl.
    rewrite !andb_true_iff. split; [done|].
    intros [-> _]. rewrite seq_true. unfold InStock. tauto.
  - unfold PreOrderSupport.entry. simpl.
    rewrite !andb_true_iff, !orb_true_iff, !seq_true. split; [done|].
    unfold InStock, PreOrder, BackOrder. tauto.
Qed.

Lemma low_stock_is_about_quantity_grey :
  let d :=
    {| LowStock.isAvailable := false;
       LowStock.isLowStock := true;
       LowStock.quantity := 3%nat;
       LowStock.availability := OutOfStock;
       LowStock.lowPrice := 50%nat |} in
  (LowStock.isLowStock d = true ↔
     JS.gt (LowStock.quantity d) (0 : JS.number) = true
     ∧ JS.le (LowStock.quantity d) LOW_STOCK_THRESHOLD = true)
  ∧ (LowStock.isLowStock d = true →
       (LowStock.isAvailable d = true ↔
          LowStock.availability d = InStock
          ∧ JS.gt (LowStock.lowPrice d) (0 : JS.number) = true)).
Proof.
  refine (proj1 (low_stock_is_about_quantity
                   (Some [Fixtures.red; Fixtures.grey]) None "Grey" _
                   {| PreOrderSupport.isAvailable := false;
                      PreOrderSupport.isPreOrder := false;
                      PreOrderSupport.isBackOrder := false;
                      PreOrderSupport.isLowStock := true;
                      PreOrderSupport.quantity := 3%nat;
                      PreOrderSupport.availability := OutOfStock;
                      PreOrderSupport.lowPrice := 50%nat |} _ _)).
  - reflexivity.
  - reflexivity.
Defined.

(** C5, as stated, fails: three units of a variant that is out of stock
    make an entry that is low on stock and not available. *)
Lemma low_stock_without_availability :
  LowStock.createVariantAvailabilityMap (Some [Fixtures.grey]) None !! "Grey"
  = Some {| LowStock.isAvailable := false;
            LowStock.isLowStock := true;
            LowStock.quantity := 3%nat;
            LowStock.availability := OutOfStock;
            LowStock.lowPrice := 50%nat |}
  ∧ PreOrderSupport.createVariantAvailabilityMap (Some [Fixtures.grey]) None !! "Grey"
    = Some {| PreOrderSupport.isAvailable := false;
              PreOrderSupport.isPreOrder := false;
              PreOrderSupport.isBackOrder := false;
              PreOrderSupport.isLowStock := true;
              PreOrderSupport.quantity := 3%nat;
              PreOrderSupport.availability := OutOfStock;
              PreOrderSupport.lowPrice := 50%nat |}.
Proof. split; reflexivity. Qed.

(** ** The threshold is taken as given *)

Section ReduceProjection.

Context {V W : Type} (entry : Variant.t → V) (field : V → W).

(** Reading one field of every entry commutes with filling the map. *)
Lemma reduce_lookup_fmap (vs : list Variant.t) (m : gmap string V) (k : string) :
  field <$> foldl (λ map variant, <[Variant.name variant := entry variant]> map)
                  m vs !! k
  = foldl (λ map variant, <[Variant.name variant := field (entry variant)]> map)
          (field <$> m) vs !! k.
Proof.
  revert m. induction vs as [|w vs IH]; intros m; simpl.
  - by rewrite lookup_fmap.
  - by rewrite IH, fmap_insert.
Qed.

End ReduceProjection.

Lemma reduce_ext {V : Type} (entry entry' : Variant.t → V)
    (vs : list Variant.t) (m : gmap string V) :
  (∀ variant, entry variant = entry' variant) →
  foldl (λ map variant, <[Variant.name variant := entry variant]> map) m vs
  = foldl (λ map variant, <[Variant.name variant := entry' variant]> map) m vs.
Proof.
  intros Hext. revert m. induction vs as [|w vs IH]; intros m; simpl; [done|].
  by rewrite Hext, IH.
Qed.

(** C8, as the code has it. The threshold is an ordinary argument and is
    never validated. A negative threshold is accepted: the map is built
    for every variant as usual, availability is what it is under the
    default threshold, and no entry is low on stock. *)
Theorem negative_threshold_accepted
    (allVariantProducts : option (list Variant.t)) (lowStockThreshold : JS.number) :
  JS.lt lowStockThreshold (0 : JS.number) = true →
  let map :=
    LowStock.createVariantAvailabilityMap allVariantProducts (Some lowStockThreshold) in
  (∀ k, is_Some (map !! k) ↔ k ∈ variantNames allVariantProducts)
  ∧ (∀ k d, map !! k = Some d → LowStock.isLowStock d = false)
  ∧ (∀ k, LowStock.isAvailable <$> map !! k
          = LowStock.isAvailable
              <$> LowStock.createVariantAvailabilityMap allVariantProducts None !! k).
Proof.
  intros Hnegative. simpl.
  destruct allVariantProducts as [vs|]; simpl.
  - split; [|split].
    + intros k. rewrite reduce_lookup_is_Some, lookup_empty.
      split; [intros [[? [=]]|?]; done | by right].
    + intros k d [Hd | (variant & _ & _ & ->)]%reduce_lookup_Some; [done|].
      unfold LowStock.entry. simpl.
      by apply JSFacts.no_positive_below_negative.
    + intros k. rewrite !reduce_lookup_fmap. f_equal.
  - split; [|split]; [|done..].
    intros k. rewrite lookup_empty, elem_of_nil. split; [intros [? [=]] | done].
Qed.

Lemma negative_threshold_accepted_yellow :
  let map :=
    LowStock.createVariantAvailabilityMap
      (Some [Fixtures.yellow]) (Some (JS.Finite (-1))) in
  (∀ k, is_Some (map !! k) ↔ k ∈ ["Yellow"])
  ∧ (∀ k d, map !! k = Some d → LowStock.isLowStock d = false)
  ∧ (∀ k, LowStock.isAvailable <$> map !! k
          = LowStock.isAvailable
              <$> LowStock.createVariantAvailabilityMap (Some [Fixtures.yellow]) None
                    !! k).
Proof.
  apply (negative_threshold_accepted (Some [Fixtures.yellow]) (JS.Finite (-1))).
  reflexivity.
Defined.

(** C8, as stated, fails: a threshold of -1 is not rejected. It reaches
    the classification of the document's low-stock test variant, which
    comes out available and, this time, not low on stock. *)
Lemma negative_threshold_reaches_classification :
  JS.lt (JS.Finite (-1)) (0 : JS.number) = true
  ∧ LowStock.createVariantAvailabilityMap
      (Some [Fixtures.yellow]) (Some (JS.Finite (-1))) !! "Yellow"
    = Some {| LowStock.isAvailable := true;
              LowStock.isLowStock := false;
              LowStock.quantity := 5%nat;
              LowStock.availability := InStock;
              LowStock.lowPrice := 50%nat |}.
Proof. split; reflexivity. Qed.

(** ** The map covers the variants, and nothing else *)

Section ReduceKeys.

Context {V : Type} (entry : Variant.t → V).

Lemma reduce_keys (vs : list Variant.t) (k : string) :
  is_Some (foldl (λ map variant, <[Variant.name variant := entry variant]> map)
                 (∅ : gmap string V) vs !! k)
  ↔ k ∈ Variant.name <$> vs.
Proof.
  rewrite reduce_lookup_is_Some, lookup_empty.
  split; [intros [[? [=]]|?]; done | by right].
Qed.

(** One entry for each distinct name. *)
Lemma reduce_size (vs : list Variant.t) :
  size (foldl (λ map variant, <[Variant.name variant := entry variant]> map)
              (∅ : gmap string V) vs)
  = length (remove_dups (Variant.name <$> vs)).
Proof.
  rewrite <- (size_dom (D := gset string)).
  rewrite <- (size_list_to_set (C := gset string)) by apply NoDup_remove_dups.
  f_equal. apply set_eq. intros k.
  by rewrite elem_of_dom, reduce_keys, elem_of_list_to_set, elem_of_remove_dups.
Qed.

End ReduceKeys.

(** With the name normalisation of edge case 4 the map also has an entry
    under the normalised form of every name. *)
Lemma normalized_keys (trim toLowerCase : string → string)
    (allVariantProducts : option (list Variant.t)) (k : string) :
  is_Some (Normalized.createVariantAvailabilityMap trim toLowerCase
             allVariantProducts !! k)
  ↔ k ∈ variantNames allVariantProducts
    ∨ k ∈ Normalized.normalizeVariantName trim toLowerCase
            <$> variantNames allVariantProducts.
Proof.
  destruct allVariantProducts as [vs|]; simpl.
  - assert (Hfold : ∀ m : Phase1.AvailabilityMap,
      is_Some
        (foldl (λ map variant,
                  <[Variant.name variant := Phase1.entry variant]>
                    (<[Normalized.normalizeVariantName trim toLowerCase
                         (Variant.name variant) := Phase1.entry variant]> map))
               m vs !! k)
      ↔ is_Some (m !! k)
        ∨ k ∈ Variant.name <$> vs
        ∨ k ∈ Normalized.normalizeVariantName trim toLowerCase
                <$> (Variant.name <$> vs)).
    { induction vs as [|w vs IH]; intros m; simpl.
      - rewrite !elem_of_nil. tauto.
      - rewrite IH, !elem_of_cons, !lookup_insert_is_Some.
        destruct (decide (Variant.name w = k)) as [Heq|Hne];
          destruct (decide (Normalized.normalizeVariantName trim toLowerCase
                              (Variant.name w) = k)) as [Heq'|Hne'];
          intuition congruence. }
    rewrite Hfold, lookup_empty.
    split; [intros [[? [=]] | ?]; done | by right].
  - rewrite lookup_empty, !elem_of_nil. split; [intros [? [=]] | tauto].
Qed.

(** ** Diagnostics *)

(** What the monitoring revision logs for the document's four test
    variants, on a console that keeps its messages and with a stand-in for
    [toFixed]. Outside development nothing is logged. *)
Example monitoring_logs_counts :
  let variants := Some [Fixtures.red; Fixtures.blue; Fixtures.green; Fixtures.yellow] in
  let toFixed (x : JS.number) (digits : nat) := "75.0" in
  snd (Monitoring.createVariantAvailabilityMap
         (Some "development") Fixtures.keep toFixed variants [])
  = [("Variant Availability Stats:",
      {| Monitoring.total := 4;
         Monitoring.withOffers := 3;
         Monitoring.withAvailability := 3;
         Monitoring.coverage := "75.0%" |})]
  ∧ snd (Monitoring.createVariantAvailabilityMap
           (Some "production") Fixtures.keep toFixed variants [])
    = [].
Proof. split; reflexivity. Qed.

(** ** The quantity of an offer *)

(** Edge case 1 reads [offer?.quantity ?? 0]: under the seller priority
    the inventory level is not consulted. *)
Example seller_priority_drops_inventory_level :
  Phase1.quantity <$> Phase1.createVariantAvailabilityMap (Some [Fixtures.teal]) !! "Teal"
  = Some (7%nat : JS.number)
  ∧ Phase1.quantity
      <$> MultiSeller.createVariantAvailabilityMap (Some [Fixtures.teal]) !! "Teal"
    = Some (0%nat : JS.number).
Proof. split; reflexivity. Qed.

(** C9. When the offer a variant is classified by has no [quantity], the
    quantity recorded in the map is the offer's [inventoryLevel.value] if
    that is there, and 0 if it is missing too. (Phase 1 and the two
    features built on it.) *)
Theorem quantity_falls_back_to_inventory_level
    (before after : list Variant.t) (variant : Variant.t) (offer : Offer.t)
    (lowStockThreshold : option JS.number) :
  notOverwritten variant after →
  firstOffer variant = Some offer →
  Offer.quantity offer = None →
  let allVariantProducts := Some (before ++ variant :: after)%list in
  let expected :=
    match Offer.inventoryLevel offer ?. InventoryLevel.value with
    | Some value => value
    | None => (0 : JS.number)
    end in
  Phase1.quantity
    <$> Phase1.createVariantAvailabilityMap allVariantProducts
          !! Variant.name variant = Some expected
  ∧ LowStock.quantity
      <$> LowStock.createVariantAvailabilityMap allVariantProducts lowStockThreshold
            !! Variant.name variant = Some expected
  ∧ PreOrderSupport.quantity
      <$> PreOrderSupport.createVariantAvailabilityMap allVariantProducts lowStockThreshold
            !! Variant.name variant = Some expected.
Proof.
  intros Hlast Hoffer Hquantity. simpl.
  unfold firstOffer in Hoffer.
  unfold Phase1.createVariantAvailabilityMap,
    LowStock.createVariantAvailabilityMap,
    PreOrderSupport.createVariantAvailabilityMap.
  rewrite !reduce_lookup_last by exact Hlast.
  unfold Phase1.entry, LowStock.entry, PreOrderSupport.entry. simpl.
  rewrite Hoffer. simpl. rewrite Hquantity. done.
Qed.

Lemma quantity_falls_back_to_inventory_level_teal :
  let allVariantProducts := Some ([Fixtures.red] ++ Fixtures.teal :: [Fixtures.green])%list in
  Phase1.quantity
    <$> Phase1.createVariantAvailabilityMap allVariantProducts !! "Teal"
  = Some (7%nat : JS.number)
  ∧ LowStock.quantity
      <$> LowStock.createVariantAvailabilityMap allVariantProducts None !! "Teal"
    = Some (7%nat : JS.number)
  ∧ PreOrderSupport.quantity
      <$> PreOrderSupport.createVariantAvailabilityMap allVariantProducts None !! "Teal"
    = Some (7%nat : JS.number).
Proof.
  apply (quantity_falls_back_to_inventory_level
           [Fixtures.red] [Fixtures.green] Fixtures.teal
           (Fixtures.stocked PreOrder 7) None).
  - unfold notOverwritten. repeat constructor. discriminate.
  - reflexivity.
  - reflexivity.
Defined.

(** * Further properties of the code *)

(** ** More on the [reduce] *)

Section ReduceMore.

Context {V : Type} (entry : Variant.t → V).

(** An entry is that of the last variant of its name. *)
Lemma reduce_lookup_Some_last (vs : list Variant.t) (k : string) (d : V) :
  foldl (λ map variant, <[Variant.name variant := entry variant]> map)
        (∅ : gmap string V) vs !! k = Some d →
  ∃ before variant after,
    vs = (before ++ variant :: after)%list
    ∧ Variant.name variant = k
    ∧ notOverwritten variant after
    ∧ d = entry variant.
Proof.
  induction vs as [|w vs IH] using rev_ind; [done|].
  rewrite foldl_app. simpl. intros Hd.
  destruct (decide (Variant.name w = k)) as [Heq|Hne].
  - subst k. rewrite lookup_insert_eq in Hd. injection Hd as <-.
    exists vs, w, []. repeat split. apply Forall_nil_2.
  - rewrite lookup_insert_ne in Hd by done.
    destruct (IH Hd) as (before & variant & after & -> & Hk & Hafter & ->).
    exists before, variant, (after ++ [w])%list. repeat split.
    + by rewrite <- app_assoc.
    + done.
    + apply Forall_app. split; [done|]. apply Forall_singleton. congruence.
Qed.

Lemma NoDup_notOverwritten (before after : list Variant.t) (variant : Variant.t) :
  NoDup (Variant.name <$> (before ++ variant :: after)%list) →
  notOverwritten variant after.
Proof.
  rewrite fmap_app, fmap_cons. intros [_ [_ Hnodup]]%NoDup_app.
  apply NoDup_cons in Hnodup as [Hfresh _].
  apply Forall_forall. intros w Hw Heq. apply Hfresh.
  rewrite <- Heq. apply list_elem_of_fmap. by exists w.
Qed.

(** With distinct names the order of the variants does not matter. *)
Lemma reduce_permutation (vs vs' : list Variant.t) :
  NoDup (Variant.name <$> vs) →
  vs ≡ₚ vs' →
  foldl (λ map variant, <[Variant.name variant := entry variant]> map)
        (∅ : gmap string V) vs
  = foldl (λ map variant, <[Variant.name variant := entry variant]> map)
          (∅ : gmap string V) vs'.
Proof.
  intros Hnodup Hperm.
  assert (Hnodup' : NoDup (Variant.name <$> vs')) by by rewrite <- Hperm.
  apply map_eq. intros k.
  destruct (foldl _ ∅ vs !! k) as [d|] eqn:Hd.
  - apply reduce_lookup_Some_last in Hd
      as (before & variant & after & -> & <- & _ & ->).
    assert (Hin : variant ∈ vs').
    { rewrite <- Hperm. apply elem_of_app. right. apply list_elem_of_here. }
    apply list_elem_of_split in Hin as (before' & after' & ->).
    symmetry. apply reduce_lookup_last.
    by eapply NoDup_notOverwritten.
  - symmetry. apply eq_None_not_Some. intros Hsome%reduce_keys.
    rewrite <- Hperm in Hsome. apply reduce_keys with (entry := entry) in Hsome.
    rewrite Hd in Hsome. by destruct Hsome.
Qed.

End ReduceMore.

Section ReduceRelated.

Context {V W : Type} (entry : Variant.t → V) (entry' : Variant.t → W).
Context (R : V → W → Prop).
Hypothesis entries_related : ∀ variant, R (entry variant) (entry' variant).

(** Two revisions whose entries are related variant by variant fill maps
    that are related key by key: under each key both have an entry, or
    neither has. *)
Lemma reduce_lookup_related (vs : list Variant.t) (k : string) :
  option_Forall2 R
    (foldl (λ map variant, <[Variant.name variant := entry variant]> map)
           (∅ : gmap string V) vs !! k)
    (foldl (λ map variant, <[Variant.name variant := entry' variant]> map)
           (∅ : gmap string W) vs !! k).
Proof.
  induction vs as [|w vs IH] using rev_ind.
  - simpl. rewrite !lookup_empty. constructor.
  - rewrite !foldl_app. simpl.
    destruct (decide (Variant.name w = k)) as [Heq|Hne].
    + subst k. rewrite !lookup_insert_eq. by constructor.
    + by rewrite !lookup_insert_ne.
Qed.

Lemma reduce_lookup_related_Some (vs : list Variant.t) (k : string) (d : V) (d' : W) :
  foldl (λ map variant, <[Variant.name variant := entry variant]> map)
        (∅ : gmap string V) vs !! k = Some d →
  foldl (λ map variant, <[Variant.name variant := entry' variant]> map)
        (∅ : gmap string W) vs !! k = Some d' →
  R d d'.
Proof.
  intros Hd Hd'. pose proof (reduce_lookup_related vs k) as Hrel.
  rewrite Hd, Hd' in Hrel. by inversion Hrel.
Qed.

End ReduceRelated.

Lemma le_trans (a b c : JS.number) :
  JS.le a b = true → JS.le b c = true → JS.le a c = true.
Proof.
  unfold JS.le.
  destruct a as [| | |x], b as [| | |y], c as [| | |z]; try done.
  rewrite !Qle_bool_iff. apply Qle_trans.
Qed.

(** ** Variants that share a name, and the order of variants *)

(** X1. When several variants of a response bear the same name, the map
    holds the entry of the last of them: later variants overwrite earlier
    ones, in every revision. *)
Theorem duplicate_names_last_wins
    (before after : list Variant.t) (variant : Variant.t)
    (lowStockThreshold : option JS.number) :
  notOverwritten variant after →
  let allVariantProducts := Some (before ++ variant :: after)%list in
  let threshold := lowStockThreshold ?? LOW_STOCK_THRESHOLD in
  Phase1.createVariantAvailabilityMap allVariantProducts !! Variant.name variant
  = Some (Phase1.entry variant)
  ∧ LowStock.createVariantAvailabilityMap allVariantProducts lowStockThreshold
      !! Variant.name variant
    = Some (LowStock.entry threshold variant)
  ∧ PreOrderSupport.createVariantAvailabilityMap allVariantProducts lowStockThreshold
      !! Variant.name variant
    = Some (PreOrderSupport.entry threshold variant)
  ∧ MultiSeller.createVariantAvailabilityMap allVariantProducts
      !! Variant.name variant
    = Some (MultiSeller.entry variant).
Proof.
  intros Hlast. simpl. repeat split; by apply reduce_lookup_last.
Qed.

Lemma duplicate_names_last_wins_red_twice :
  let soldOut := Fixtures.variant "Red" "9" 0 [Fixtures.offer OutOfStock 0] in
  Phase1.isAvailable
    <$> Phase1.createVariantAvailabilityMap
          (Some ([Fixtures.red] ++ soldOut :: [Fixtures.blue])%list) !! "Red"
  = Some false.
Proof.
  pose proof (proj1 (duplicate_names_last_wins
                       [Fixtures.red] [Fixtures.blue]
                       (Fixtures.variant "Red" "9" 0 [Fixtures.offer OutOfStock 0])
                       None
                       ltac:(unfold notOverwritten; repeat constructor; discriminate)))
    as Hlookup.
  simpl in *. by rewrite Hlookup.
Defined.

(** X2. When the names are distinct, the map does not depend on the order
    in which the variants are received. *)
Theorem order_of_distinct_variants_is_irrelevant
    (vs vs' : list Variant.t) (lowStockThreshold : option JS.number) :
  NoDup (Variant.name <$> vs) →
  vs ≡ₚ vs' →
  Phase1.createVariantAvailabilityMap (Some vs)
  = Phase1.createVariantAvailabilityMap (Some vs')
  ∧ LowStock.createVariantAvailabilityMap (Some vs) lowStockThreshold
    = LowStock.createVariantAvailabilityMap (Some vs') lowStockThreshold
  ∧ PreOrderSupport.createVariantAvailabilityMap (Some vs) lowStockThreshold
    = PreOrderSupport.createVariantAvailabilityMap (Some vs') lowStockThreshold
  ∧ MultiSeller.createVariantAvailabilityMap (Some vs)
    = MultiSeller.createVariantAvailabilityMap (Some vs').
Proof.
  intros Hnodup Hperm. repeat split; by apply reduce_permutation.
Qed.

Lemma order_of_distinct_variants_is_irrelevant_red_blue :
  Phase1.createVariantAvailabilityMap (Some [Fixtures.red; Fixtures.blue])
  = Phase1.createVariantAvailabilityMap (Some [Fixtures.blue; Fixtures.red]).
Proof.
  refine (proj1 (order_of_distinct_variants_is_irrelevant
                   [Fixtures.red; Fixtures.blue] [Fixtures.blue; Fixtures.red]
                   None _ _)).
  - apply (bool_decide_unpack _). vm_compute. exact I.
  - apply Permutation_swap.
Defined.

(** ** What an entry says about itself *)

(** X3. Every entry of the map explains its own flag: it is available
    exactly when the status it records is InStock and the quantity and
    the price it records are positive. This holds with the seller priority
    as well, where the recorded status and quantity are those of the
    selected offer. *)
Theorem available_entries_are_in_stock_and_priced
    (allVariantProducts : option (list Variant.t)) (k : string)
    (d d' : Phase1.VariantAvailability) :
  Phase1.createVariantAvailabilityMap allVariantProducts !! k = Some d →
  MultiSeller.createVariantAvailabilityMap allVariantProducts !! k = Some d' →
  (Phase1.isAvailable d = true ↔
     Phase1.availability d = InStock
     ∧ JS.gt (Phase1.quantity d) (0 : JS.number) = true
     ∧ JS.gt (Phase1.lowPrice d) (0 : JS.number) = true)
  ∧ (Phase1.isAvailable d' = true ↔
       Phase1.availability d' = InStock
       ∧ JS.gt (Phase1.quantity d') (0 : JS.number) = true
       ∧ JS.gt (Phase1.lowPrice d') (0 : JS.number) = true).
Proof.
  intros Hd Hd'.
  destruct allVariantProducts as [vs|]; [|done].
  apply reduce_lookup_Some in Hd as [Hd | (variant & _ & _ & ->)]; [done|].
  apply reduce_lookup_Some in Hd' as [Hd' | (variant' & _ & _ & ->)]; [done|].
  unfold Phase1.entry, MultiSeller.entry. simpl.
  rewrite !andb_true_iff, !seq_true. unfold InStock. tauto.
Qed.

Lemma available_entries_are_in_stock_and_priced_red :
  let d :=
    {| Phase1.isAvailable := true;
       Phase1.quantity := 100%nat;
       Phase1.availability := InStock;
       Phase1.lowPrice := 50%nat |} in
  Phase1.isAvailable d = true ↔
    Phase1.availability d = InStock
    ∧ JS.gt (Phase1.quantity d) (0 : JS.number) = true
    ∧ JS.gt (Phase1.lowPrice d) (0 : JS.number) = true.
Proof.
  refine (proj1 (available_entries_are_in_stock_and_priced
                   (Some [Fixtures.red; Fixtures.blue]) "Red" _
                   {| Phase1.isAvailable := true;
                      Phase1.quantity := 100%nat;
                      Phase1.availability := InStock;
                      Phase1.lowPrice := 50%nat |} _ _)).
  - reflexivity.
  - reflexivity.
Defined.

(** ** How the revisions relate *)

(** X4. Low stock warnings add a flag and change nothing else: whatever
    the threshold, the entries of Feature 1 agree with those of Phase 1 on
    availability, quantity, status and price, key by key. *)
Theorem low_stock_revision_extends_phase1
    (allVariantProducts : option (list Variant.t))
    (lowStockThreshold : option JS.number) (k : string) :
  let extended :=
    LowStock.createVariantAvailabilityMap allVariantProducts lowStockThreshold in
  let baseline := Phase1.createVariantAvailabilityMap allVariantProducts in
  LowStock.isAvailable <$> extended !! k = Phase1.isAvailable <$> baseline !! k
  ∧ LowStock.quantity <$> extended !! k = Phase1.quantity <$> baseline !! k
  ∧ LowStock.availability <$> extended !! k = Phase1.availability <$> baseline !! k
  ∧ LowStock.lowPrice <$> extended !! k = Phase1.lowPrice <$> baseline !! k.
Proof.
  simpl. destruct allVariantProducts as [vs|]; simpl.
  - rewrite !reduce_lookup_fmap. repeat split; f_equal.
  - by rewrite !lookup_empty.
Qed.

(** X5. Pre-order support only widens availability. Under each key, the
    entry of Feature 3 is available exactly when the entry of Phase 1 is,
    or when the price is positive and the status is PreOrder or BackOrder,
    or InStock with a quantity that is not positive: Feature 3 no longer
    looks at the quantity. *)
Theorem pre_order_revision_widens_availability
    (allVariantProducts : option (list Variant.t))
    (lowStockThreshold : option JS.number) (k : string)
    (d : Phase1.VariantAvailability) (d' : PreOrderSupport.VariantAvailability) :
  Phase1.createVariantAvailabilityMap allVariantProducts !! k = Some d →
  PreOrderSupport.createVariantAvailabilityMap allVariantProducts lowStockThreshold
    !! k = Some d' →
  PreOrderSupport.isAvailable d' = true ↔
    Phase1.isAvailable d = true
    ∨ (JS.gt (Phase1.lowPrice d) (0 : JS.number) = true
       ∧ (Phase1.availability d = PreOrder
          ∨ Phase1.availability d = BackOrder
          ∨ (Phase1.availability d = InStock
             ∧ JS.gt (Phase1.quantity d) (0 : JS.number) = false))).
Proof.
  intros Hd Hd'.
  destruct allVariantProducts as [vs|]; [|done].
  pose proof (reduce_lookup_related_Some
                Phase1.entry
                (PreOrderSupport.entry (lowStockThreshold ?? LOW_STOCK_THRESHOLD))
                (λ d d',
                   PreOrderSupport.isAvailable d' = true ↔
                     Phase1.isAvailable d = true
                     ∨ (JS.gt (Phase1.lowPrice d) (0 : JS.number) = true
                        ∧ (Phase1.availability d = PreOrder
                           ∨ Phase1.availability d = BackOrder
                           ∨ (Phase1.availability d = InStock
                              ∧ JS.gt (Phase1.quantity d) (0 : JS.number) = false))))
             ) as Hrel.
  eapply Hrel; [|exact Hd|exact Hd']. clear.
  intros variant. unfold Phase1.entry, PreOrderSupport.entry. simpl.
  rewrite !andb_true_iff, !orb_true_iff, !seq_true.
  unfold InStock, PreOrder, BackOrder.
  destruct (JS.gt (_ ??? _ ?? _) _); intuition congruence.
Qed.

Lemma pre_order_revision_widens_availability_teal :
  let d :=
    {| Phase1.isAvailable := false;
       Phase1.quantity := 7%nat;
       Phase1.availability := PreOrder;
       Phase1.lowPrice := 30%nat |} in
  let d' :=
    {| PreOrderSupport.isAvailable := true;
       PreOrderSupport.isPreOrder := true;
       PreOrderSupport.isBackOrder := false;
       PreOrderSupport.isLowStock := true;
       PreOrderSupport.quantity := 7%nat;
       PreOrderSupport.availability := PreOrder;
       PreOrderSupport.lowPrice := 30%nat |} in
  PreOrderSupport.isAvailable d' = true ↔
    Phase1.isAvailable d = true
    ∨ (JS.gt (Phase1.lowPrice d) (0 : JS.number) = true
       ∧ (Phase1.availability d = PreOrder
          ∨ Phase1.availability d = BackOrder
          ∨ (Phase1.availability d = InStock
             ∧ JS.gt (Phase1.quantity d) (0 : JS.number) = false))).
Proof.
  apply (pre_order_revision_widens_availability (Some [Fixtures.teal]) None "Teal").
  - reflexivity.
  - reflexivity.
Defined.

(** X6. Raising the threshold never removes a low-stock mark: an entry
    that is low on stock under a threshold is low on stock under every
    threshold at or above it. *)
Theorem low_stock_is_monotone_in_the_threshold
    (allVariantProducts : option (list Variant.t))
    (lower higher : JS.number) (k : string)
    (d d' : LowStock.VariantAvailability) :
  JS.le lower higher = true →
  LowStock.createVariantAvailabilityMap allVariantProducts (Some lower) !! k
  = Some d →
  LowStock.createVariantAvailabilityMap allVariantProducts (Some higher) !! k
  = Some d' →
  LowStock.isLowStock d = true →
  LowStock.isLowStock d' = true.
Proof.
  intros Hle Hd Hd'.
  destruct allVariantProducts as [vs|]; [|done].
  eapply (reduce_lookup_related_Some
            (LowStock.entry lower) (LowStock.entry higher)
            (λ d d', LowStock.isLowStock d = true → LowStock.isLowStock d' = true));
    [|exact Hd|exact Hd'].
  intros variant. unfold LowStock.entry. simpl.
  rewrite !andb_true_iff. intros [Hpositive Hbelow].
  split; [done|]. by eapply le_trans.
Qed.

Lemma low_stock_is_monotone_in_the_threshold_yellow :
  LowStock.isLowStock
    {| LowStock.isAvailable := true;
       LowStock.isLowStock := true;
       LowStock.quantity := 5%nat;
       LowStock.availability := InStock;
       LowStock.lowPrice := 50%nat |}
  = true.
Proof.
  refine (low_stock_is_monotone_in_the_threshold
            (Some [Fixtures.yellow]) (5%nat : JS.number) (20%nat : JS.number)
            "Yellow"
            {| LowStock.isAvailable := true;
               LowStock.isLowStock := true;
               LowStock.quantity := 5%nat;
               LowStock.availability := InStock;
               LowStock.lowPrice := 50%nat |}
            _ _ _ _ _); reflexivity.
Defined.

(** ** The seller priority *)

Lemma or_string_eq (a : option string) (status : string) :
  status ≠ "" → JS.or_string a "" = status ↔ a = Some status.
Proof.
  intros Hstatus. unfold JS.or_string, JS.truthy.
  destruct a as [s|]; [|by split].
  destruct (String.eqb_spec s "") as [->|Hs]; simpl.
  - split; [done | by intros [= <-]].
  - split; [by intros -> | by intros [= ->]].
Qed.

(** X7. Under the seller priority, as soon as seller ["1"] has an offer
    the variant is classified by that offer alone: the entry records its
    status and its quantity (0 without a [quantity] field, whatever the
    inventory level), and the variant is available exactly when that offer
    is InStock with a positive quantity and the price is positive. The
    offers of other sellers, even earlier ones, have no influence. *)
Theorem default_seller_decides_availability
    (before after : list Variant.t) (variant : Variant.t)
    (offers : list Offer.t) (chosen : Offer.t) :
  notOverwritten variant after →
  Variant.offers variant ?. Offers.offers = Some offers →
  JS.find MultiSeller.isDefaultSeller offers = Some chosen →
  ∃ d,
    MultiSeller.createVariantAvailabilityMap (Some (before ++ variant :: after)%list)
      !! Variant.name variant = Some d
    ∧ Phase1.availability d = JS.or_string (Offer.availability chosen) ""
    ∧ Phase1.quantity d = Offer.quantity chosen ?? (0 : JS.number)
    ∧ (Phase1.isAvailable d = true ↔
         Offer.availability chosen = Some InStock
         ∧ JS.gt (Offer.quantity chosen ?? (0 : JS.number)) (0 : JS.number) = true
         ∧ JS.gt (resolvedLowPrice variant) (0 : JS.number) = true).
Proof.
  intros Hlast Hoffers Hfind.
  unfold MultiSeller.createVariantAvailabilityMap.
  rewrite reduce_lookup_last by exact Hlast.
  eexists. split; [reflexivity|].
  unfold MultiSeller.entry, MultiSeller.offer, resolvedLowPrice.
  rewrite Hoffers. simpl. rewrite Hfind. simpl.
  split; [reflexivity|]. split; [reflexivity|].
  rewrite !andb_true_iff, seq_true.
  fold InStock. rewrite (or_string_eq _ InStock) by done. tauto.
Qed.

Lemma default_seller_decides_availability_violet :
  ∃ d,
    MultiSeller.createVariantAvailabilityMap
      (Some ([Fixtures.red] ++ Fixtures.violet :: [])%list) !! "Violet" = Some d
    ∧ Phase1.availability d = OutOfStock
    ∧ Phase1.quantity d = (0%nat : JS.number)
    ∧ (Phase1.isAvailable d = true ↔
         Some OutOfStock = Some InStock
         ∧ JS.gt (0%nat : JS.number) (0 : JS.number) = true
         ∧ JS.gt (50%nat : JS.number) (0 : JS.number) = true).
Proof.
  apply (default_seller_decides_availability
           [Fixtures.red] [] Fixtures.violet Fixtures.twoSellers
           (Fixtures.sold_by "1" (Fixtures.offer OutOfStock 0))).
  - unfold notOverwritten. constructor.
  - reflexivity.
  - reflexivity.
Defined.

(** ** Name normalisation *)

(** X8. When every name is already in normalised form, storing each
    entry under both keys changes nothing: the map is the one of
    Phase 1. *)
Theorem normalisation_is_a_no_op_on_normalised_names
    (trim toLowerCase : string → string) (vs : list Variant.t) :
  Forall (λ variant,
            Normalized.normalizeVariantName trim toLowerCase (Variant.name variant)
            = Variant.name variant) vs →
  Normalized.createVariantAvailabilityMap trim toLowerCase (Some vs)
  = Phase1.createVariantAvailabilityMap (Some vs).
Proof.
  intros Hnormal. simpl.
  generalize (∅ : Phase1.AvailabilityMap).
  induction Hnormal as [|w vs Hw _ IH]; intros m; simpl; [done|].
  by rewrite Hw, insert_insert_eq, IH.
Qed.

Lemma normalisation_is_a_no_op_on_normalised_names_identity :
  Normalized.createVariantAvailabilityMap id id (Some [Fixtures.red; Fixtures.blue])
  = Phase1.createVariantAvailabilityMap (Some [Fixtures.red; Fixtures.blue]).
Proof.
  apply (normalisation_is_a_no_op_on_normalised_names
           id id [Fixtures.red; Fixtures.blue]).
  repeat constructor.
Defined.

(** X9. With the name normalisation, the entry under a key is that of the
    last variant whose name or normalised name is the key. So a variant
    is found under its name and under its normalised name, unless a later
    variant writes to the same key through either of its two names. *)
Theorem normalised_lookup_last_writer_wins
    (trim toLowerCase : string → string)
    (before after : list Variant.t) (variant : Variant.t) (k : string) :
  k = Variant.name variant
  ∨ k = Normalized.normalizeVariantName trim toLowerCase (Variant.name variant) →
  Forall (λ w,
            Variant.name w ≠ k
            ∧ Normalized.normalizeVariantName trim toLowerCase (Variant.name w) ≠ k)
         after →
  Normalized.createVariantAvailabilityMap trim toLowerCase
    (Some (before ++ variant :: after)%list) !! k
  = Some (Phase1.entry variant).
Proof.
  intros Hk Hafter. simpl. rewrite foldl_app. simpl.
  generalize (foldl
                (λ map variant0,
                   <[Variant.name variant0 := Phase1.entry variant0]>
                     (<[Normalized.normalizeVariantName trim toLowerCase
                          (Variant.name variant0) := Phase1.entry variant0]> map))
                (∅ : Phase1.AvailabilityMap) before).
  intros m.
  assert (Hother : ∀ m' : Phase1.AvailabilityMap,
    foldl
      (λ map variant0,
         <[Variant.name variant0 := Phase1.entry variant0]>
           (<[Normalized.normalizeVariantName trim toLowerCase
                (Variant.name variant0) := Phase1.entry variant0]> map))
      m' after !! k = m' !! k).
  { induction Hafter as [|w after [Hname Hnormal] _ IH]; intros m'; simpl; [done|].
    rewrite IH. by rewrite !lookup_insert_ne. }
  rewrite Hother.
  destruct Hk as [-> | ->].
  - apply lookup_insert_eq.
  - destruct (decide (Variant.name variant
                      = Normalized.normalizeVariantName trim toLowerCase
                          (Variant.name variant))) as [<-|Hne].
    + apply lookup_insert_eq.
    + rewrite lookup_insert_ne by done. apply lookup_insert_eq.
Qed.

Lemma normalised_lookup_last_writer_wins_red :
  let toLowerCase (name : string) := if String.eqb name "Red" then "red" else name in
  Normalized.createVariantAvailabilityMap id toLowerCase
    (Some ([Fixtures.blue] ++ Fixtures.red :: [Fixtures.yellow])%list) !! "red"
  = Some (Phase1.entry Fixtures.red).
Proof.
  apply (normalised_lookup_last_writer_wins
           id (λ name, if String.eqb name "Red" then "red" else name)
           [Fixtures.blue] [Fixtures.yellow] Fixtures.red "red").
  - right. reflexivity.
  - repeat constructor; discriminate.
Defined.

(** ** What the monitoring logs *)

Lemma development_match {A : Type} (mode : string) (a b : A) :
  match mode with
  | "development" => a
  | _ => b
  end
  = if String.eqb mode "development" then a else b.
Proof.
  do 11 (destruct mode as [|[[] [] [] [] [] [] [] []] mode]; try reflexivity).
  destruct mode; reflexivity.
Qed.

Lemma length_filter_impl {A : Type} (P Q : A → Prop)
    `{∀ x, Decision (P x)} `{∀ x, Decision (Q x)} (l : list A) :
  (∀ x, P x → Q x) → (length (filter P l) ≤ length (filter Q l))%nat.
Proof.
  intros Himpl. induction l as [|x l IH]; simpl; [done|].
  rewrite !filter_cons.
  destruct (decide (P x)) as [HP|HP], (decide (Q x)) as [HQ|HQ]; simpl; try lia.
  by destruct HQ; apply Himpl.
Qed.

Lemma length_remove_dups_le (l : list string) :
  (length (remove_dups l) ≤ length l)%nat.
Proof.
  induction l as [|x l IH]; simpl; [done|].
  destruct (decide_rel elem_of x l); simpl; lia.
Qed.

(** X10. In a development build, a call on a list of variants hands the
    console one record of counts: the total is the number of variants
    received, the variants with a status are among those with offers and
    these among all, and the map has no more entries than the total (fewer
    when names repeat). *)
Theorem monitoring_reports_consistent_counts
    {World : Type}
    (console_log : string → Monitoring.Stats → World → World)
    (toFixed : JS.number → nat → string)
    (vs : list Variant.t) (world : World) :
  let result :=
    Monitoring.createVariantAvailabilityMap
      (Some "development") console_log toFixed (Some vs) world in
  ∃ stats,
    snd result = console_log "Variant Availability Stats:" stats world
    ∧ Monitoring.total stats = length vs
    ∧ (Monitoring.withAvailability stats ≤ Monitoring.withOffers stats)%nat
    ∧ (Monitoring.withOffers stats ≤ Monitoring.total stats)%nat
    ∧ (size (fst result) ≤ Monitoring.total stats)%nat.
Proof.
  simpl. eexists. split; [reflexivity|]. simpl. repeat split.
  - apply length_filter_impl. intros v.
    destruct (Variant.offers v); [by eexists | done].
  - apply length_filter.
  - rewrite reduce_size, <- (length_fmap Variant.name vs).
    apply length_remove_dups_le.
Qed.

(** X11. Outside development builds nothing is logged, and when the list
    of variants is missing nothing is logged in any build: the call
    returns before the counts are taken. *)
Theorem monitoring_is_silent
    {World : Type}
    (NODE_ENV : option string)
    (console_log : string → Monitoring.Stats → World → World)
    (toFixed : JS.number → nat → string)
    (allVariantProducts : option (list Variant.t)) (world : World) :
  NODE_ENV ≠ Some "development" ∨ allVariantProducts = None →
  snd (Monitoring.createVariantAvailabilityMap
         NODE_ENV console_log toFixed allVariantProducts world)
  = world.
Proof.
  intros Hsilent.
  destruct allVariantProducts as [vs|]; [|done].
  destruct Hsilent as [Hmode|]; [|done]. simpl.
  destruct NODE_ENV as [mode|]; [|done].
  rewrite development_match.
  destruct (String.eqb_spec mode "development") as [->|]; done.
Qed.

Lemma monitoring_is_silent_in_production :
  snd (Monitoring.createVariantAvailabilityMap
         (Some "production") Fixtures.keep (λ _ _, "")
         (Some [Fixtures.red; Fixtures.green]) [])
  = [].
Proof.
  apply (monitoring_is_silent
           (Some "production") Fixtures.keep (λ _ _, "")
           (Some [Fixtures.red; Fixtures.green]) []).
  left. discriminate.
Defined.

(** ** The options of the selector *)

Lemma default_alt_not_empty (propertyName value : string) :
  propertyName ++ ": " ++ value ≠ "".
Proof. by destruct propertyName. Qed.

Lemma or_string_not_empty (a : option string) (b : string) :
  b ≠ "" → JS.or_string a b ≠ "".
Proof.
  intros Hb. unfold JS.or_string, JS.truthy.
  destruct a as [s|]; [|done].
  by destruct (String.eqb_spec s "").
Qed.

(** X14. Decorating the options of a property keeps every option, in
    order, with its value and image; the label becomes the value; the alt
    text is never empty: a non-empty one is kept, an empty or missing one
    becomes ["property: value"]; and [disabled] is [isVariantDisabled] of
    the option's value. *)
Theorem enhanced_options_keep_every_option
    (propertyName : string) (options : list SkuOption.t)
    (variantAvailabilityMap : Phase1.AvailabilityMap) :
  let enhanced :=
    ProductDetails.enhancedOptions propertyName options variantAvailabilityMap in
  EnhancedOption.value <$> enhanced = SkuOption.value <$> options
  ∧ EnhancedOption.src <$> enhanced = SkuOption.src <$> options
  ∧ EnhancedOption.label <$> enhanced = SkuOption.value <$> options
  ∧ EnhancedOption.disabled <$> enhanced
    = (λ opt, Phase1.isVariantDisabled (SkuOption.value opt) variantAvailabilityMap)
        <$> options
  ∧ Forall (λ e, EnhancedOption.alt e ≠ "") enhanced
  ∧ (∀ i opt alt,
       options !! i = Some opt → SkuOption.alt opt = Some alt → alt ≠ "" →
       EnhancedOption.alt <$> enhanced !! i = Some alt)
  ∧ (∀ i opt,
       options !! i = Some opt →
       SkuOption.alt opt = None ∨ SkuOption.alt opt = Some "" →
       EnhancedOption.alt <$> enhanced !! i
       = Some (propertyName ++ ": " ++ SkuOption.value opt)).
Proof.
  simpl. unfold ProductDetails.enhancedOptions.
  rewrite <- !list_fmap_compose. repeat split; try done.
  - apply Forall_fmap, Forall_forall. intros opt _. simpl.
    apply or_string_not_empty, default_alt_not_empty.
  - intros i opt alt Hopt Halt Hne.
    rewrite list_lookup_fmap, Hopt. simpl. rewrite Halt.
    unfold JS.or_string, JS.truthy.
    by destruct (String.eqb_spec alt "").
  - intros i opt Hopt Halt.
    rewrite list_lookup_fmap, Hopt. simpl.
    by destruct Halt as [-> | ->].
Qed.

(** X16. The feature flag: unless [NEXT_PUBLIC_ENABLE_AVAILABILITY] is
    exactly ["true"], no option is disabled, whatever the map says, and the
    options are otherwise those of Phase 2; with the flag at ["true"] they
    are those of Phase 2, [disabled] included. *)
Theorem feature_flag_off_enables_every_option
    (NEXT_PUBLIC_ENABLE_AVAILABILITY : option string)
    (propertyName : string) (options : list SkuOption.t)
    (variantAvailabilityMap : Phase1.AvailabilityMap) :
  NEXT_PUBLIC_ENABLE_AVAILABILITY ≠ Some "true" →
  let flagged :=
    Rollback.enhancedOptions NEXT_PUBLIC_ENABLE_AVAILABILITY
      propertyName options variantAvailabilityMap in
  let plain :=
    ProductDetails.enhancedOptions propertyName options variantAvailabilityMap in
  Forall (λ e, EnhancedOption.disabled e = false) flagged
  ∧ EnhancedOption.value <$> flagged = EnhancedOption.value <$> plain
  ∧ EnhancedOption.src <$> flagged = EnhancedOption.src <$> plain
  ∧ EnhancedOption.alt <$> flagged = EnhancedOption.alt <$> plain
  ∧ EnhancedOption.label <$> flagged = EnhancedOption.label <$> plain
  ∧ Rollback.enhancedOptions (Some "true")
      propertyName options variantAvailabilityMap = plain.
Proof.
  intros Hoff. simpl.
  assert (Hflag : Rollback.ENABLE_AVAILABILITY_CHECK NEXT_PUBLIC_ENABLE_AVAILABILITY
                  = false).
  { unfold Rollback.ENABLE_AVAILABILITY_CHECK, JS.seq.
    destruct NEXT_PUBLIC_ENABLE_AVAILABILITY as [flag|]; [|done].
    destruct (String.eqb_spec flag "true") as [->|]; done. }
  unfold Rollback.enhancedOptions, ProductDetails.enhancedOptions.
  rewrite Hflag, <- !list_fmap_compose. repeat split; try done.
  apply Forall_fmap, Forall_forall. done.
Qed.

Lemma feature_flag_off_enables_every_option_unset :
  Forall (λ e, EnhancedOption.disabled e = false)
         (Rollback.enhancedOptions None "Cor" Samples.colours
            (Phase1.createVariantAvailabilityMap (Some [Fixtures.red; Fixtures.blue]))).
Proof.
  refine (proj1 (feature_flag_off_enables_every_option
                   None "Cor" Samples.colours
                   (Phase1.createVariantAvailabilityMap
                      (Some [Fixtures.red; Fixtures.blue])) _)).
  discriminate.
Defined.

(** ** All properties at once *)

Section ReduceEntries.

Context {A B : Type} (f : string → A → B).



End ReduceEntries.



(** ** The tooltip and the low stock indicator *)

(** X19. The low stock attribute of an option is either absent or
    ["true"], and it is there exactly when the map has an entry for the
    option's value whose quantity is positive and at or below the
    threshold. *)
Theorem low_stock_attribute_follows_the_quantity
    (propertyName : string) (options : list SkuOption.t)
    (allVariantProducts : option (list Variant.t))
    (lowStockThreshold : option JS.number) (e : LowStockOption.t) :
  let map :=
    LowStock.createVariantAvailabilityMap allVariantProducts lowStockThreshold in
  e ∈ LowStockIndicator.enhancedOptions propertyName options map →
  (LowStockOption.data_low_stock e = None
   ∨ LowStockOption.data_low_stock e = Some "true")
  ∧ (LowStockOption.data_low_stock e = Some "true" ↔
       ∃ d,
         map !! LowStockOption.value e = Some d
         ∧ JS.gt (LowStock.quantity d) (0 : JS.number) = true
         ∧ JS.le (LowStock.quantity d) (lowStockThreshold ?? LOW_STOCK_THRESHOLD)
           = true).
Proof.
  simpl. unfold LowStockIndicator.enhancedOptions.
  intros (opt & -> & _)%list_elem_of_fmap. simpl.
  destruct (LowStock.createVariantAvailabilityMap allVariantProducts lowStockThreshold
              !! SkuOption.value opt) as [d|] eqn:Hd; simpl.
  - assert (Hflag : LowStock.isLowStock d = true ↔
                    JS.gt (LowStock.quantity d) (0 : JS.number) = true
                    ∧ JS.le (LowStock.quantity d)
                            (lowStockThreshold ?? LOW_STOCK_THRESHOLD) = true).
    { destruct allVariantProducts as [vs|]; [|done].
      apply reduce_lookup_Some in Hd as [Hd | (variant & _ & _ & ->)]; [done|].
      unfold LowStock.entry. simpl. by rewrite andb_true_iff. }
    destruct (LowStock.isLowStock d).
    + split; [by right|]. split; [|done].
      intros _. exists d. split; [done|]. by apply Hflag.
    + split; [by left|]. split; [done|].
      intros (d' & [= <-] & Hquantity). by apply Hflag in Hquantity.
  - split; [by left|]. split; [done|]. by intros (d & ? & _).
Qed.

Lemma low_stock_attribute_follows_the_quantity_grey :
  let map := LowStock.createVariantAvailabilityMap (Some [Fixtures.grey]) None in
  let e :=
    {| LowStockOption.src := "https://example.com/Grey";
       LowStockOption.alt := "Cor: Grey";
       LowStockOption.label := "Grey";
       LowStockOption.value := "Grey";
       LowStockOption.disabled := true;
       LowStockOption.data_low_stock := Some "true" |} in
  (LowStockOption.data_low_stock e = None
   ∨ LowStockOption.data_low_stock e = Some "true")
  ∧ (LowStockOption.data_low_stock e = Some "true" ↔
       ∃ d,
         map !! LowStockOption.value e = Some d
         ∧ JS.gt (LowStock.quantity d) (0 : JS.number) = true
         ∧ JS.le (LowStock.quantity d) LOW_STOCK_THRESHOLD = true).
Proof.
  apply (low_stock_attribute_follows_the_quantity
           "Cor" [Samples.option "Grey"] (Some [Fixtures.grey]) None).
  apply list_elem_of_here.
Defined.

(** ** Cart notifications *)

Lemma messageKey_error (message : Toast.Message) :
  Toast.status message = "ERROR" →
  Toast.messageKey message = "ERROR-" ++ Toast.text message.
Proof. unfold Toast.messageKey. by intros ->. Qed.

Lemma error_key_inj (text text' : string) :
  "ERROR-" ++ text = "ERROR-" ++ text' → text = text'.
Proof. intros Hkey. cbv [String.append] in Hkey. by injection Hkey. Qed.

Lemma process_not_error (st : Toast.State) (message : Toast.Message) :
  Toast.status message ≠ "ERROR" → Toast.process st message = st.
Proof.
  intros Hstatus. unfold Toast.process, JS.seq.
  by destruct (String.eqb_spec (Toast.status message) "ERROR").
Qed.

Lemma process_seen (st : Toast.State) (message : Toast.Message) :
  Toast.messageKey message ∈ Toast.processedMessages st →
  Toast.process st message = st.
Proof.
  intros Hseen. unfold Toast.process.
  destruct (JS.seq _ _); [|done]. by rewrite bool_decide_eq_true_2.
Qed.

Lemma process_new (st : Toast.State) (message : Toast.Message) :
  Toast.status message = "ERROR" →
  Toast.messageKey message ∉ Toast.processedMessages st →
  Toast.process st message
  = {| Toast.processedMessages :=
         {[Toast.messageKey message]} ∪ Toast.processedMessages st;
       Toast.pushToast_calls :=
         (Toast.pushToast_calls st
            ++ [{| Toast.pushed_message := Toast.text message;
                   Toast.pushed_status := "ERROR" |}])%list |}.
Proof.
  intros Hstatus Hnew. unfold Toast.process, JS.seq.
  rewrite bool_decide_eq_false_2 by done. by rewrite Hstatus.
Qed.

Lemma union_seen (processed keys : gset string) (key : string) :
  key ∈ processed ∪ keys →
  processed ∪ keys = processed ∪ (keys ∪ ({[key]} ∪ ∅)).
Proof.
  intros Hseen. apply set_eq. intros x.
  rewrite !elem_of_union, elem_of_singleton, elem_of_empty.
  rewrite elem_of_union in Hseen.
  split; [tauto|]. intros [?|[?|[->|[]]]]; tauto.
Qed.

Lemma union_fresh (processed keys : gset string) (key : string) :
  {[key]} ∪ (processed ∪ keys) = processed ∪ (keys ∪ ({[key]} ∪ ∅)).
Proof.
  apply set_eq. intros x.
  rewrite !elem_of_union, elem_of_singleton, elem_of_empty. tauto.
Qed.

(** What one pass over the messages does to the state. *)
Lemma forEach_process (st : Toast.State) (messages : list Toast.Message) :
  let st' := foldl Toast.process st messages in
  ∃ new,
    Toast.pushToast_calls st' = (Toast.pushToast_calls st ++ new)%list
    ∧ Toast.processedMessages st'
      = Toast.processedMessages st
          ∪ list_to_set
              (Toast.messageKey
                 <$> filter (λ message, Toast.status message = "ERROR") messages)
    ∧ Forall (λ p,
                Toast.pushed_status p = "ERROR"
                ∧ (("ERROR-" ++ Toast.pushed_message p) ∉ Toast.processedMessages st)
                ∧ ("ERROR-" ++ Toast.pushed_message p) ∈ Toast.processedMessages st'
                ∧ ∃ message,
                    message ∈ messages
                    ∧ Toast.status message = "ERROR"
                    ∧ Toast.text message = Toast.pushed_message p)
             new
    ∧ NoDup (Toast.pushed_message <$> new)
    ∧ (∀ message,
         message ∈ messages →
         Toast.status message = "ERROR" →
         Toast.messageKey message ∉ Toast.processedMessages st →
         {| Toast.pushed_message := Toast.text message;
            Toast.pushed_status := "ERROR" |} ∈ new).
Proof.
  simpl. induction messages as [|message messages IH] using rev_ind.
  - exists []. simpl. rewrite app_nil_r.
    repeat split; [by rewrite (right_id_L ∅ (∪)) | constructor | constructor | ].
    intros message Hin. by apply elem_of_nil in Hin.
  - destruct IH as (new & Hcalls & Hprocessed & Hnew & Hnodup & Hcomplete).
    rewrite foldl_app. simpl.
    set (st' := foldl Toast.process st messages) in *.
    destruct (decide (Toast.status message = "ERROR")) as [Herror|Hother].
    + destruct (decide (Toast.messageKey message ∈ Toast.processedMessages st'))
        as [Hseen|Hfresh].
      * rewrite process_seen by done.
        exists new. split; [done|]. split; [|split; [|split; [done|]]].
        -- rewrite filter_app, fmap_app, list_to_set_app_L, Hprocessed.
           rewrite filter_cons_True by done. simpl.
           rewrite Hprocessed in Hseen. by apply union_seen.
        -- eapply Forall_impl; [exact Hnew|]. simpl.
           intros p (? & ? & ? & m & Hm & ? & ?). repeat split; try done.
           exists m. split; [|done]. apply elem_of_app. by left.
        -- intros m [Hm | Hm%list_elem_of_singleton]%elem_of_app Hstatus Hunseen.
           ++ by apply Hcomplete.
           ++ subst m. rewrite Hprocessed in Hseen.
              apply elem_of_union in Hseen as [Hseen|Hseen]; [done|].
              apply elem_of_list_to_set, list_elem_of_fmap in Hseen
                as (m0 & Hkey & Hm0).
              apply list_elem_of_filter in Hm0 as [Hstatus0 Hm0].
              rewrite (messageKey_error message), (messageKey_error m0) in Hkey
                by done.
              pose proof (error_key_inj _ _ Hkey) as Htext. rewrite Htext.
              apply Hcomplete; [done..|].
              rewrite (messageKey_error m0) by done. rewrite <- Hkey.
              by rewrite <- (messageKey_error message).
      * rewrite process_new by done. simpl.
        exists (new ++ [{| Toast.pushed_message := Toast.text message;
                           Toast.pushed_status := "ERROR" |}])%list.
        split; [by rewrite Hcalls, app_assoc|].
        split; [|split; [|split]].
        -- rewrite filter_app, fmap_app, list_to_set_app_L, Hprocessed.
           rewrite filter_cons_True by done. simpl. apply union_fresh.
        -- apply Forall_app. split.
           ++ eapply Forall_impl; [exact Hnew|]. simpl.
              intros p (? & ? & ? & m & Hm & ? & ?). repeat split; try done.
              ** apply elem_of_union. by right.
              ** exists m. split; [|done]. apply elem_of_app. by left.
           ++ apply Forall_singleton. simpl.
              rewrite <- (messageKey_error message) by done.
              repeat split.
              ** rewrite Hprocessed in Hfresh. intros Hold. apply Hfresh.
                 apply elem_of_union. by left.
              ** apply elem_of_union. left. by apply elem_of_singleton.
              ** exists message. split; [|done].
                 apply elem_of_app. right. apply list_elem_of_here.
        -- rewrite fmap_app. simpl. apply NoDup_app. split; [done|]. split.
           ++ intros t (p & -> & Hp)%list_elem_of_fmap Hsame%list_elem_of_singleton.
              rewrite Forall_forall in Hnew.
              destruct (Hnew p Hp) as (_ & _ & Hin & _).
              apply Hfresh. rewrite messageKey_error by done. by rewrite <- Hsame.
           ++ apply NoDup_singleton.
        -- intros m [Hm | Hm%list_elem_of_singleton]%elem_of_app Hstatus Hunseen;
             apply elem_of_app.
           ++ left. by apply Hcomplete.
           ++ right. subst m. apply list_elem_of_here.
    + rewrite process_not_error by done.
      exists new. split; [done|]. split; [|split; [|split; [done|]]].
      * rewrite filter_app, filter_cons_False, filter_nil, app_nil_r by done. done.
      * eapply Forall_impl; [exact Hnew|]. simpl.
        intros p (? & ? & ? & m & Hm & ? & ?). repeat split; try done.
        exists m. split; [|done]. apply elem_of_app. by left.
      * intros m [Hm | Hm%list_elem_of_singleton]%elem_of_app Hstatus Hunseen.
        -- by apply Hcomplete.
        -- by subst m.
Qed.

Lemma effect_calls (messages : option (list Toast.Message)) (st : Toast.State) :
  Toast.pushToast_calls (Toast.effect messages st)
  = Toast.pushToast_calls (foldl Toast.process st (default [] messages)).
Proof. destruct messages as [[|message messages]|]; reflexivity. Qed.

Lemma forEach_process_seen (st : Toast.State) (messages : list Toast.Message) :
  (∀ message,
     message ∈ messages → Toast.status message = "ERROR" →
     Toast.messageKey message ∈ Toast.processedMessages st) →
  foldl Toast.process st messages = st.
Proof.
  induction messages as [|message messages IH]; intros Hseen; simpl; [done|].
  assert (Hstep : Toast.process st message = st).
  { destruct (decide (Toast.status message = "ERROR")) as [Herror|Hother].
    - apply process_seen, Hseen; [apply list_elem_of_here | done].
    - by apply process_not_error. }
  rewrite Hstep. apply IH. intros m Hm. apply Hseen. by apply list_elem_of_further.
Qed.

(** X20. The effect only ever shows errors of the cart, and each at most
    once: the toasts pushed by one run all have status ERROR, each carries
    the text of an ERROR message of the cart whose key was not yet
    processed, and no text is pushed twice. Messages of another status
    are never shown. *)
Theorem toasts_are_unseen_errors_without_repeats
    (messages : option (list Toast.Message)) (st : Toast.State) :
  ∃ new,
    Toast.pushToast_calls (Toast.effect messages st)
    = (Toast.pushToast_calls st ++ new)%list
    ∧ Forall (λ p,
                Toast.pushed_status p = "ERROR"
                ∧ (("ERROR-" ++ Toast.pushed_message p) ∉ Toast.processedMessages st)
                ∧ ∃ message,
                    message ∈ default [] messages
                    ∧ Toast.status message = "ERROR"
                    ∧ Toast.text message = Toast.pushed_message p)
             new
    ∧ NoDup (Toast.pushed_message <$> new).
Proof.
  rewrite effect_calls.
  destruct (forEach_process st (default [] messages))
    as (new & Hcalls & _ & Hnew & Hnodup & _).
  exists new. split; [done|]. split; [|done].
  eapply Forall_impl; [exact Hnew|]. simpl. tauto.
Qed.

(** X21. No new error is lost: an ERROR message of the cart whose key
    has not been processed yet is pushed by the run. *)
Theorem every_unseen_error_is_shown
    (messages : list Toast.Message) (st : Toast.State) (message : Toast.Message) :
  message ∈ messages →
  Toast.status message = "ERROR" →
  Toast.messageKey message ∉ Toast.processedMessages st →
  ∃ new,
    Toast.pushToast_calls (Toast.effect (Some messages) st)
    = (Toast.pushToast_calls st ++ new)%list
    ∧ {| Toast.pushed_message := Toast.text message;
         Toast.pushed_status := "ERROR" |} ∈ new.
Proof.
  intros Hin Herror Hunseen. rewrite effect_calls. simpl.
  destruct (forEach_process st messages) as (new & Hcalls & _ & _ & _ & Hcomplete).
  exists new. split; [done|]. by apply Hcomplete.
Qed.

Lemma every_unseen_error_is_shown_item_removed :
  ∃ new,
    Toast.pushToast_calls (Toast.effect (Some Samples.cartMessages) Samples.fresh)
    = ([] ++ new)%list
    ∧ {| Toast.pushed_message := "Item removed";
         Toast.pushed_status := "ERROR" |} ∈ new.
Proof.
  apply (every_unseen_error_is_shown
           Samples.cartMessages Samples.fresh (Samples.error "Item removed")).
  - do 3 apply list_elem_of_further. apply list_elem_of_here.
  - reflexivity.
  - apply not_elem_of_empty.
Defined.

(** X22. The set of processed keys after a run: untouched when the cart
    has no message list, emptied when the list is empty, and otherwise
    grown by the keys of all ERROR messages of the list. It is only ever
    emptied by an empty list. *)
Theorem processed_keys_after_a_run
    (messages : option (list Toast.Message)) (st : Toast.State) :
  Toast.processedMessages (Toast.effect messages st)
  = match messages with
    | None => Toast.processedMessages st
    | Some [] => ∅
    | Some messages =>
        Toast.processedMessages st
          ∪ list_to_set
              (Toast.messageKey
                 <$> filter (λ message, Toast.status message = "ERROR") messages)
    end.
Proof.
  destruct messages as [[|message messages]|]; [done| |done].
  destruct (forEach_process st (message :: messages)) as (_ & _ & Hprocessed & _).
  exact Hprocessed.
Qed.

(** X23. Running the effect again on the same messages changes nothing:
    no toast is pushed a second time. *)
Theorem effect_is_idempotent
    (messages : option (list Toast.Message)) (st : Toast.State) :
  Toast.effect messages (Toast.effect messages st) = Toast.effect messages st.
Proof.
  destruct messages as [[|message messages]|]; [done| |done].
  unfold Toast.effect. simpl length. simpl Nat.eqb. cbv iota.
  apply forEach_process_seen. intros m Hm Herror.
  destruct (forEach_process st (message :: messages)) as (_ & _ & Hprocessed & _).
  rewrite Hprocessed.
  apply elem_of_union. right.
  apply elem_of_list_to_set, list_elem_of_fmap. exists m. split; [done|].
  by apply list_elem_of_filter.
Qed.

(** X24. Once the cart has reported an empty list of messages, every
    ERROR message of the next list is shown, also one that had been shown
    before. *)
Theorem errors_are_shown_again_after_a_clear
    (messages : list Toast.Message) (st : Toast.State) (message : Toast.Message) :
  message ∈ messages →
  Toast.status message = "ERROR" →
  ∃ new,
    Toast.pushToast_calls
      (Toast.effect (Some messages) (Toast.effect (Some []) st))
    = (Toast.pushToast_calls st ++ new)%list
    ∧ {| Toast.pushed_message := Toast.text message;
         Toast.pushed_status := "ERROR" |} ∈ new.
Proof.
  intros Hin Herror. rewrite effect_calls. simpl.
  destruct (forEach_process
              {| Toast.processedMessages := ∅;
                 Toast.pushToast_calls := Toast.pushToast_calls st |} messages)
    as (new & Hcalls & _ & _ & _ & Hcomplete).
  exists new. split; [done|]. apply Hcomplete; [done..|].
  simpl. apply not_elem_of_empty.
Qed.

Lemma errors_are_shown_again_after_a_clear_out_of_stock :
  let shown := Toast.effect (Some Samples.cartMessages) Samples.fresh in
  ∃ new,
    Toast.pushToast_calls
      (Toast.effect (Some Samples.cartMessages) (Toast.effect (Some []) shown))
    = (Toast.pushToast_calls shown ++ new)%list
    ∧ {| Toast.pushed_message := "Out of stock";
         Toast.pushed_status := "ERROR" |} ∈ new.
Proof.
  apply (errors_are_shown_again_after_a_clear
           Samples.cartMessages
           (Toast.effect (Some Samples.cartMessages) Samples.fresh)
           (Samples.error "Out of stock")).
  - apply list_elem_of_here.
  - reflexivity.
Defined.

(** * The map as a plain object *)

(** ** The two views of the map *)

(** The plain object the code builds, read off the table of what
    [map[name]] holds: the own properties are the entries under every name
    but ["__proto__"], and the entry under that name, if any, is the
    prototype. *)
Lemma plain_object_of_lookups (allVariantProducts : option (list Variant.t)) :
  PlainObject.own (Runtime.createVariantAvailabilityMap allVariantProducts)
  = delete "__proto__" (Phase1.createVariantAvailabilityMap allVariantProducts)
  ∧ PlainObject.prototype (Runtime.createVariantAvailabilityMap allVariantProducts)
    = Phase1.createVariantAvailabilityMap allVariantProducts !! "__proto__".
Proof.
  destruct allVariantProducts as [vs|]; simpl.
  - assert (Hfold : ∀ (o : PlainObject.t) (m : Phase1.AvailabilityMap),
      PlainObject.own o = delete "__proto__" m
      ∧ PlainObject.prototype o = m !! "__proto__" →
      let o' :=
        foldl (λ map variant,
                 PlainObject.set (Variant.name variant) (Phase1.entry variant) map)
              o vs in
      let m' :=
        foldl (λ map variant, <[Variant.name variant := Phase1.entry variant]> map)
              m vs in
      PlainObject.own o' = delete "__proto__" m'
      ∧ PlainObject.prototype o' = m' !! "__proto__").
    { induction vs as [|w vs IH]; intros o m Hview; simpl; [done|].
      apply IH. destruct Hview as [Hown Hprototype].
      unfold PlainObject.set.
      destruct (String.eqb_spec (Variant.name w) "__proto__") as [->|Hne]; simpl.
      - by rewrite Hown, delete_insert_eq, lookup_insert_eq.
      - rewrite Hown, Hprototype, lookup_insert_ne by done.
        split; [|done]. by rewrite delete_insert_ne. }
    apply Hfold. simpl. by rewrite delete_empty, lookup_empty.
  - by rewrite delete_empty, lookup_empty.
Qed.

Lemma not_inherited (k : string) :
  k ∉ inheritedNames →
  String.eqb k "__proto__" = false
  ∧ PlainObject.fromObjectPrototype k = PlainObject.Undefined
  ∧ ∀ entry, PlainObject.field k entry = None.
Proof.
  unfold inheritedNames. rewrite not_elem_of_cons, not_elem_of_app.
  intros (Haccessor & Hmember & Hfield).
  split; [by apply String.eqb_neq|]. split.
  - unfold PlainObject.fromObjectPrototype. by rewrite bool_decide_eq_false_2.
  - intros entry. unfold PlainObject.field.
    rewrite !not_elem_of_cons in Hfield.
    destruct Hfield as (H1 & H2 & H3 & H4 & _).
    apply String.eqb_neq in H1, H2, H3, H4. by rewrite H1, H2, H3, H4.
Qed.

(** A read under the name of a variant finds the entry written last
    under that name, whatever the name. *)
Lemma get_at_a_variant_name
    (allVariantProducts : option (list Variant.t)) (k : string)
    (d : Phase1.VariantAvailability) :
  Phase1.createVariantAvailabilityMap allVariantProducts !! k = Some d →
  PlainObject.get k (Runtime.createVariantAvailabilityMap allVariantProducts)
  = PlainObject.Entry d.
Proof.
  intros Hd. destruct (plain_object_of_lookups allVariantProducts) as [Hown Hproto].
  unfold PlainObject.get. rewrite Hown, Hproto.
  destruct (String.eqb_spec k "__proto__") as [->|Hne].
  - by rewrite lookup_delete_eq, Hd.
  - by rewrite lookup_delete_ne, Hd.
Qed.

(** A read under a name that nothing on the prototype chain can answer
    finds an entry or nothing. *)
Lemma get_at_an_ordinary_name
    (allVariantProducts : option (list Variant.t)) (k : string) :
  k ∉ inheritedNames →
  PlainObject.get k (Runtime.createVariantAvailabilityMap allVariantProducts)
  = match Phase1.createVariantAvailabilityMap allVariantProducts !! k with
    | Some d => PlainObject.Entry d
    | None => PlainObject.Undefined
    end.
Proof.
  intros (Haccessor & Hmember & Hfield)%not_inherited.
  destruct (plain_object_of_lookups allVariantProducts) as [Hown Hproto].
  unfold PlainObject.get. rewrite Hown, Haccessor.
  rewrite lookup_delete_ne by (by apply String.eqb_neq in Haccessor).
  destruct (Phase1.createVariantAvailabilityMap allVariantProducts !! k); [done|].
  destruct (PlainObject.prototype _); [by rewrite Hfield|done].
Qed.

Lemma lookup_keys (allVariantProducts : option (list Variant.t)) (k : string) :
  is_Some (Phase1.createVariantAvailabilityMap allVariantProducts !! k)
  ↔ k ∈ variantNames allVariantProducts.
Proof.
  destruct allVariantProducts as [vs|]; simpl; [apply reduce_keys|].
  rewrite lookup_empty, elem_of_nil. split; [intros [? [=]] | done].
Qed.

(** Where the two views of [isVariantDisabled] agree: at the names of the
    variants and at the names the prototype chain cannot answer. *)
Lemma isVariantDisabled_views_agree
    (allVariantProducts : option (list Variant.t)) (optionValue : string) :
  optionValue ∈ variantNames allVariantProducts ∨ (optionValue ∉ inheritedNames) →
  Runtime.isVariantDisabled optionValue
    (Runtime.createVariantAvailabilityMap allVariantProducts)
  = Phase1.isVariantDisabled optionValue
      (Phase1.createVariantAvailabilityMap allVariantProducts).
Proof.
  unfold Runtime.isVariantDisabled, Phase1.isVariantDisabled.
  intros [[d Hd]%lookup_keys | Hordinary].
  - by rewrite (get_at_a_variant_name _ _ d Hd), Hd.
  - rewrite get_at_an_ordinary_name by done.
    by destruct (Phase1.createVariantAvailabilityMap allVariantProducts
                   !! optionValue).
Qed.

(** The keys of the object are the names of the variants, ["__proto__"]
    excepted. *)
Lemma keys_are_the_names_but_the_accessor
    (allVariantProducts : option (list Variant.t)) (k : string) :
  k ∈ PlainObject.keys (Runtime.createVariantAvailabilityMap allVariantProducts)
  ↔ k ∈ variantNames allVariantProducts ∧ k ≠ "__proto__".
Proof.
  unfold PlainObject.keys.
  rewrite (proj1 (plain_object_of_lookups allVariantProducts)).
  rewrite elem_of_dom, lookup_delete_is_Some, lookup_keys.
  split; intros [? ?]; split; congruence.
Qed.

(** ** The keys of the map *)

(** C6, at the input where the code departs from it. A variant named
    ["__proto__"] gets no entry of its own: the write [map[variant.name] =
    ...] replaces the prototype of the map. For the two variants
    ["__proto__"] and ["Red"] the map has the single key ["Red"] where
    the input has two names, and the entry of the first variant has
    become the prototype. *)
Theorem accessor_named_variant_gets_no_entry :
  let allVariantProducts := Some [Samples.accessor; Fixtures.red] in
  let map := Runtime.createVariantAvailabilityMap allVariantProducts in
  variantNames allVariantProducts = ["__proto__"; "Red"]
  ∧ PlainObject.keys map = {["Red"]}
  ∧ size (PlainObject.own map) = 1
  ∧ PlainObject.own map !! "__proto__" = None
  ∧ PlainObject.prototype map = Some (Phase1.entry Samples.accessor).
Proof.
  simpl. repeat split; reflexivity.
Qed.

(** ** Options without an entry *)

(** The document's test of an unknown option, on [{}]. *)
Example unknown_option_on_the_empty_map :
  Runtime.isVariantDisabled "Unknown" PlainObject.empty = false.
Proof. reflexivity. Qed.

(** C10, at the input where the code departs from it. ["toString"] is not
    a key of the empty map, nor of the map of the document's tests, and
    [isVariantDisabled] answers [true] for it: the read finds the function
    that every object inherits, which has no [isAvailable]. The warning
    version answers [true] as well and does not warn. *)
Theorem inherited_name_is_disabled :
  let map := Runtime.createVariantAvailabilityMap (Some [Fixtures.red; Fixtures.blue]) in
  ("toString" ∉ PlainObject.keys PlainObject.empty)
  ∧ Runtime.isVariantDisabled "toString" PlainObject.empty = true
  ∧ ("toString" ∉ PlainObject.keys map)
  ∧ Runtime.isVariantDisabled "toString" map = true
  ∧ MissingData.isVariantDisabled keep_message "toString" PlainObject.empty []
    = (true, []).
Proof.
  simpl. repeat split; try reflexivity.
  - apply not_elem_of_empty.
  - rewrite (keys_are_the_names_but_the_accessor
               (Some [Fixtures.red; Fixtures.blue]) "toString").
    simpl. rewrite !elem_of_cons, elem_of_nil.
    intros [[?|[?|[]]] _]; discriminate.
Qed.

(** Every member of [Object.prototype] that no variant is named after is
    disabled, whatever the response. *)
Lemma inherited_members_are_disabled
    (allVariantProducts : option (list Variant.t)) (optionValue : string) :
  optionValue ∈ PlainObject.objectPrototype →
  optionValue ∉ variantNames allVariantProducts →
  Runtime.isVariantDisabled optionValue
    (Runtime.createVariantAvailabilityMap allVariantProducts) = true.
Proof.
  intros Hmember Hunknown.
  destruct (plain_object_of_lookups allVariantProducts) as [Hown Hproto].
  assert (Hne : optionValue ≠ "__proto__").
  { intros ->. revert Hmember. apply (bool_decide_unpack _). vm_compute. exact I. }
  assert (Hnone : Phase1.createVariantAvailabilityMap allVariantProducts
                    !! optionValue = None).
  { apply eq_None_not_Some. by rewrite lookup_keys. }
  assert (Hfield : ∀ entry, PlainObject.field optionValue entry = None).
  { intros entry. unfold PlainObject.field.
    assert (Hnames : Forall (λ name, Forall (λ member, member ≠ name)
                                            PlainObject.objectPrototype)
                            ["isAvailable"; "quantity"; "availability"; "lowPrice"]).
    { apply (bool_decide_unpack _). vm_compute. exact I. }
    rewrite !Forall_cons in Hnames.
    destruct Hnames as (H1 & H2 & H3 & H4 & _).
    rewrite Forall_forall in H1, H2, H3, H4.
    specialize (H1 _ Hmember). specialize (H2 _ Hmember).
    specialize (H3 _ Hmember). specialize (H4 _ Hmember).
    apply String.eqb_neq in H1, H2, H3, H4. by rewrite H1, H2, H3, H4. }
  unfold Runtime.isVariantDisabled, PlainObject.get.
  rewrite Hown, lookup_delete_ne, Hnone by done.
  apply String.eqb_neq in Hne. rewrite Hne.
  assert (Hchain : PlainObject.fromObjectPrototype optionValue = PlainObject.Builtin).
  { unfold PlainObject.fromObjectPrototype. by rewrite bool_decide_eq_true_2. }
  destruct (PlainObject.prototype _); [rewrite Hfield|]; by rewrite Hchain.
Qed.

(** ** Diagnostics and the returned map *)

Lemma monitoring_call_returns
    {World Error : Type}
    (NODE_ENV : option string)
    (console_log : string → Monitoring.Stats → World → Completion.t Error World)
    (toFixed : JS.number → nat → string)
    (allVariantProducts : option (list Variant.t)) (world world' : World)
    (map : PlainObject.t) :
  MonitoringCall.createVariantAvailabilityMap
    NODE_ENV console_log toFixed allVariantProducts world
  = Completion.Returned (map, world') →
  map = Runtime.createVariantAvailabilityMap allVariantProducts.
Proof.
  destruct allVariantProducts as [vs|]; simpl; [|by intros [= <- _]].
  destruct NODE_ENV as [mode|]; [|by intros [= <- _]].
  rewrite development_match.
  destruct (String.eqb mode "development"); [|by intros [= <- _]].
  destruct (console_log _ _ _); [by intros [= <- _] | done].
Qed.

(** The call throws exactly when it logs and the console throws. *)
Lemma monitoring_call_throws
    {World Error : Type}
    (NODE_ENV : option string)
    (console_log : string → Monitoring.Stats → World → Completion.t Error World)
    (toFixed : JS.number → nat → string)
    (allVariantProducts : option (list Variant.t)) (world : World) (e : Error) :
  MonitoringCall.createVariantAvailabilityMap
    NODE_ENV console_log toFixed allVariantProducts world
  = Completion.Thrown e →
  NODE_ENV = Some "development"
  ∧ is_Some allVariantProducts
  ∧ ∃ stats,
      console_log "Variant Availability Stats:" stats world = Completion.Thrown e.
Proof.
  destruct allVariantProducts as [vs|]; simpl; [|done].
  destruct NODE_ENV as [mode|]; [|done].
  rewrite development_match.
  destruct (String.eqb_spec mode "development") as [->|]; [|done].
  destruct (console_log _ _ _) as [|e'] eqn:Hlog; [done|].
  intros [= ->]. split; [done|]. split; [by eexists|]. by eexists.
Qed.

(** C7, as the code has it. The map a call returns depends on the
    variants alone: two calls on the same variants that both return give
    equal maps, the map that Phase 1 builds, whatever the build mode,
    whatever the console does with the counts and whatever it returns,
    and whatever the state of the world. The call does not catch what
    the console throws; see the counterexample. *)
Theorem returned_map_is_independent_of_diagnostics
    {World World' Error Error' : Type}
    (NODE_ENV NODE_ENV' : option string)
    (console_log : string → Monitoring.Stats → World → Completion.t Error World)
    (console_log' : string → Monitoring.Stats → World' → Completion.t Error' World')
    (toFixed toFixed' : JS.number → nat → string)
    (allVariantProducts : option (list Variant.t))
    (world after : World) (world' after' : World')
    (map map' : PlainObject.t) :
  MonitoringCall.createVariantAvailabilityMap
    NODE_ENV console_log toFixed allVariantProducts world
  = Completion.Returned (map, after) →
  MonitoringCall.createVariantAvailabilityMap
    NODE_ENV' console_log' toFixed' allVariantProducts world'
  = Completion.Returned (map', after') →
  map = map' ∧ map = Runtime.createVariantAvailabilityMap allVariantProducts.
Proof.
  intros Hcall%monitoring_call_returns Hcall'%monitoring_call_returns.
  by rewrite Hcall, Hcall'.
Qed.

Lemma returned_map_is_independent_of_diagnostics_two_builds :
  let map := Runtime.createVariantAvailabilityMap (Some [Fixtures.red; Fixtures.green]) in
  map = map ∧ map = Runtime.createVariantAvailabilityMap (Some [Fixtures.red; Fixtures.green]).
Proof.
  apply (returned_map_is_independent_of_diagnostics
           (Some "development") (Some "production")
           (λ message stats world,
              Completion.Returned (E := string) (Fixtures.keep message stats world))
           (λ _ _ (world : list string), Completion.Returned (E := string) world)
           (λ _ _, "50.0") (λ _ _, "")
           (Some [Fixtures.red; Fixtures.green])
           []
           [("Variant Availability Stats:",
             {| Monitoring.total := 2;
                Monitoring.withOffers := 1;
                Monitoring.withAvailability := 1;
                Monitoring.coverage := "50.0%" |})]
           ["earlier output"] ["earlier output"]).
  - reflexivity.
  - reflexivity.
Defined.

(** C7, as stated, fails where the counts cannot be emitted. With a
    console whose [log] throws, the development call on the document's
    first test variant throws and returns no map, where the production
    call, which does not log, returns the map. *)
Lemma failing_console_leaves_no_map :
  let console_log (message : string) (stats : Monitoring.Stats) (world : list string) :=
    Completion.Thrown (A := list string) "write EPIPE" in
  MonitoringCall.createVariantAvailabilityMap
    (Some "development") console_log (λ _ _, "100.0") (Some [Fixtures.red]) []
  = Completion.Thrown "write EPIPE"
  ∧ MonitoringCall.createVariantAvailabilityMap
      (Some "production") console_log (λ _ _, "100.0") (Some [Fixtures.red]) []
    = Completion.Returned
        (Runtime.createVariantAvailabilityMap (Some [Fixtures.red]), []).
Proof. split; reflexivity. Qed.

(** ** Disabled options *)

(** X12. On the map built from a response, and for an option value that
    is the name of a variant or that the prototype chain cannot answer,
    the option is disabled exactly when the response has a variant of
    that name and the last variant of that name is classified as
    unavailable. *)
Theorem disabled_means_last_variant_unavailable
    (allVariantProducts : option (list Variant.t)) (optionValue : string) :
  optionValue ∈ variantNames allVariantProducts ∨ (optionValue ∉ inheritedNames) →
  Runtime.isVariantDisabled optionValue
    (Runtime.createVariantAvailabilityMap allVariantProducts) = true
  ↔ ∃ before variant after,
      allVariantProducts = Some (before ++ variant :: after)%list
      ∧ Variant.name variant = optionValue
      ∧ notOverwritten variant after
      ∧ Phase1.isAvailable (Phase1.entry variant) = false.
Proof.
  intros Hname. rewrite isVariantDisabled_views_agree by done.
  unfold Phase1.isVariantDisabled. split.
  - destruct (Phase1.createVariantAvailabilityMap allVariantProducts !! optionValue)
      as [d|] eqn:Hd; [|done].
    intros Hdisabled%negb_true_iff.
    destruct allVariantProducts as [vs|]; [|done].
    apply reduce_lookup_Some_last in Hd
      as (before & variant & after & -> & Hvariant & Hlast & ->).
    by exists before, variant, after.
  - intros (before & variant & after & -> & <- & Hlast & Hunavailable).
    unfold Phase1.createVariantAvailabilityMap.
    rewrite reduce_lookup_last by exact Hlast.
    by rewrite Hunavailable.
Qed.

Lemma disabled_means_last_variant_unavailable_blue :
  Runtime.isVariantDisabled "Blue"
    (Runtime.createVariantAvailabilityMap (Some [Fixtures.red; Fixtures.blue])) = true
  ↔ ∃ before variant after,
      Some [Fixtures.red; Fixtures.blue] = Some (before ++ variant :: after)%list
      ∧ Variant.name variant = "Blue"
      ∧ notOverwritten variant after
      ∧ Phase1.isAvailable (Phase1.entry variant) = false.
Proof.
  apply (disabled_means_last_variant_unavailable
           (Some [Fixtures.red; Fixtures.blue]) "Blue").
  right. apply (bool_decide_unpack _). vm_compute. exact I.
Defined.

(** X13. The warning version answers like the plain one, on every map
    and for every option value. On the map built from a response, and for
    an option value that is the name of a variant or that the prototype
    chain cannot answer, it warns exactly when no variant bears the
    option's name, with the message of the source. *)
Theorem warning_exactly_for_unknown_names
    {World : Type} (console_warn : string → World → World)
    (allVariantProducts : option (list Variant.t)) (optionValue : string)
    (world : World) :
  optionValue ∈ variantNames allVariantProducts ∨ (optionValue ∉ inheritedNames) →
  let map := Runtime.createVariantAvailabilityMap allVariantProducts in
  (∀ (availabilityMap : PlainObject.t),
     fst (MissingData.isVariantDisabled console_warn optionValue availabilityMap world)
     = Runtime.isVariantDisabled optionValue availabilityMap)
  ∧ snd (MissingData.isVariantDisabled console_warn optionValue map world)
    = if decide (optionValue ∈ variantNames allVariantProducts) then world
      else console_warn ("No availability data for variant: " ++ optionValue) world.
Proof.
  intros Hname. simpl. split.
  - intros availabilityMap.
    unfold MissingData.isVariantDisabled, Runtime.isVariantDisabled.
    by destruct (PlainObject.truthy _).
  - unfold MissingData.isVariantDisabled.
    destruct (decide (optionValue ∈ variantNames allVariantProducts))
      as [Hknown|Hunknown].
    + apply lookup_keys in Hknown as [d Hd].
      by rewrite (get_at_a_variant_name _ _ d Hd).
    + destruct Hname as [?|Hordinary]; [done|].
      rewrite get_at_an_ordinary_name by done.
      apply (not_iff_compat (lookup_keys allVariantProducts optionValue)) in Hunknown.
      apply eq_None_not_Some in Hunknown. by rewrite Hunknown.
Qed.

Lemma warning_exactly_for_unknown_names_purple :
  snd (MissingData.isVariantDisabled keep_message "Purple"
         (Runtime.createVariantAvailabilityMap (Some [Fixtures.red; Fixtures.blue])) [])
  = ["No availability data for variant: Purple"].
Proof.
  refine (proj2 (warning_exactly_for_unknown_names
                   keep_message (Some [Fixtures.red; Fixtures.blue]) "Purple" [] _)).
  right. apply (bool_decide_unpack _). vm_compute. exact I.
Defined.

(** X15. Options that match no variant name stay enabled, as long as the
    prototype chain cannot answer for their values: when the response has
    no list of variants, or when no option value is the name of a variant,
    no such option is disabled. *)
Theorem unmatched_options_stay_enabled
    (propertyName : string) (options : list SkuOption.t)
    (allVariantProducts : option (list Variant.t)) :
  Forall (λ opt,
            (SkuOption.value opt ∉ variantNames allVariantProducts)
            ∧ (SkuOption.value opt ∉ inheritedNames)) options →
  Forall (λ e, EnhancedOption.disabled e = false)
         (Runtime.enhancedOptions propertyName options
            (Runtime.variantAvailabilityMap allVariantProducts)).
Proof.
  intros Hunmatched. unfold Runtime.enhancedOptions.
  apply Forall_fmap. eapply Forall_impl; [exact Hunmatched|].
  intros opt [Hunknown Hordinary]. simpl.
  assert (Hmap : Runtime.variantAvailabilityMap allVariantProducts
                 = Runtime.createVariantAvailabilityMap allVariantProducts)
    by by destruct allVariantProducts.
  rewrite Hmap, isVariantDisabled_views_agree by by right.
  unfold Phase1.isVariantDisabled.
  destruct (Phase1.createVariantAvailabilityMap allVariantProducts
              !! SkuOption.value opt) as [d|] eqn:Hd; [|done].
  destruct Hunknown. apply lookup_keys. by eexists.
Qed.

Lemma unmatched_options_stay_enabled_lower_case :
  Forall (λ e, EnhancedOption.disabled e = false)
         (Runtime.enhancedOptions "Cor"
            [Samples.option "blue"; Samples.option "Purple"]
            (Runtime.variantAvailabilityMap (Some [Fixtures.red; Fixtures.blue]))).
Proof.
  apply (unmatched_options_stay_enabled
           "Cor" [Samples.option "blue"; Samples.option "Purple"]
           (Some [Fixtures.red; Fixtures.blue])).
  apply (bool_decide_unpack _). vm_compute. exact I.
Defined.

(** An option whose value the prototype chain answers is disabled though
    no variant bears its name. *)
Example inherited_option_is_disabled :
  EnhancedOption.disabled
    <$> Runtime.enhancedOptions "Cor" [Samples.option "constructor"]
          (Runtime.variantAvailabilityMap (Some [Fixtures.red; Fixtures.blue]))
  = [true].
Proof. reflexivity. Qed.

(** ** The tooltip *)

(** X18. The tooltip against the [disabled] attribute, on every map and
    for every option value. When the read finds an entry they agree: a
    disabled option reads as unavailable and an enabled one shows its
    quantity. When it finds anything else the tooltip reads as
    unavailable, and the option is disabled exactly when what was found
    is truthy; so an option for which nothing is found stays enabled
    under a tooltip that reads as unavailable. *)
Theorem tooltip_against_disabled
    (toString : JS.number → string)
    (optionValue : string) (variantAvailabilityMap : PlainObject.t) :
  let text := Tooltip.content toString optionValue variantAvailabilityMap in
  let disabled := Runtime.isVariantDisabled optionValue variantAvailabilityMap in
  match PlainObject.get optionValue variantAvailabilityMap with
  | PlainObject.Entry variantData =>
      disabled = negb (Phase1.isAvailable variantData)
      ∧ text = if disabled then "IndisponÃ­vel"
               else toString (Phase1.quantity variantData) ++ " em estoque"
  | PlainObject.Undefined => disabled = false ∧ text = "IndisponÃ­vel"
  | found => disabled = PlainObject.truthy found ∧ text = "IndisponÃ­vel"
  end.
Proof.
  cbv zeta. unfold Tooltip.content, Runtime.isVariantDisabled.
  destruct (PlainObject.get optionValue variantAvailabilityMap) as [|d|p|].
  - done.
  - simpl. by destruct (Phase1.isAvailable d).
  - split; [|done]. by destruct (PlainObject.truthy (PlainObject.Primitive p)).
  - done.
Qed.

(** ** The two views of the decorated options *)

(** The options decorated from the table of lookups are those decorated
    from the plain object, as long as every option value is the name of a
    variant or a name the prototype chain cannot answer. *)
Lemma enhanced_options_views_agree
    (propertyName : string) (options : list SkuOption.t)
    (allVariantProducts : option (list Variant.t)) :
  Forall (λ opt,
            SkuOption.value opt ∈ variantNames allVariantProducts
            ∨ (SkuOption.value opt ∉ inheritedNames)) options →
  Runtime.enhancedOptions propertyName options
    (Runtime.createVariantAvailabilityMap allVariantProducts)
  = ProductDetails.enhancedOptions propertyName options
      (Phase1.createVariantAvailabilityMap allVariantProducts).
Proof.
  intros Hoptions. unfold Runtime.enhancedOptions, ProductDetails.enhancedOptions.
  induction Hoptions as [|opt options Hopt _ IH]; [done|].
  rewrite !fmap_cons. f_equal; [|exact IH].
  by rewrite isVariantDisabled_views_agree.
Qed.

(** With a console that always returns, the call returns, and leaves the
    world as the monitoring revision with a total console does. *)
Lemma monitoring_call_with_a_returning_console
    {World : Type}
    (NODE_ENV : option string)
    (console_log : string → Monitoring.Stats → World → World)
    (toFixed : JS.number → nat → string)
    (allVariantProducts : option (list Variant.t)) (world : World) :
  MonitoringCall.createVariantAvailabilityMap
    NODE_ENV
    (λ message stats world,
       Completion.Returned (E := Empty_set) (console_log message stats world))
    toFixed allVariantProducts world
  = Completion.Returned
      (Runtime.createVariantAvailabilityMap allVariantProducts,
       snd (Monitoring.createVariantAvailabilityMap
              NODE_ENV console_log toFixed allVariantProducts world)).
Proof.
  destruct allVariantProducts as [vs|]; simpl; [|done].
  destruct NODE_ENV as [mode|]; [|done].
  rewrite !development_match.
  by destruct (String.eqb mode "development").
Qed.
